(** * Expense tracker: a model of [main.py] and its properties

    The development follows the two classes of the program.  [Expense] is
    the record with its two conversions; [ExpenseTracker] owns the list of
    records and the backing file.  Python exceptions are results of type
    [outcome]; the tracker's methods take the tracker and return the result
    together with the tracker after the call, so that what a raised
    exception leaves behind can be stated. *)

From Stdlib Require Import List Sorted ZArith String Ascii Bool Lia DecimalString.
From Stdlib Require Import Floats.PrimFloat.
Import ListNotations.

Local Open Scope string_scope.
Local Open Scope Z_scope.

(** ** Python values, exceptions and results *)

(** What [json.load] can return, and what [json.dump] accepts. A [VDict]
    lists the bindings of a dict, every key once. *)
#[local] Unset Elimination Schemes.
Inductive value : Type :=
| VNone
| VBool (b : bool)
| VInt (n : Z)
| VFloat (x : float)
| VStr (s : string)
| VList (items : list value)
| VDict (entries : list (string * value)).
#[local] Set Elimination Schemes.

(** The exceptions the program meets.  [StrptimeError] is the [ValueError]
    that [datetime.strptime] raises on a text it rejects;
    [UnicodeDecodeError], [OSError] and [RecursionError] are what [open],
    the reading of the file and [json.load] raise besides
    [JSONDecodeError]: bytes that are no text, a path that cannot be
    opened or read, a document nested too deep. *)
Inductive exn : Type :=
| ValueError (msg : string)
| StrptimeError (text : string)
| KeyError (key : string)
| TypeError
| JSONDecodeError
| UnicodeDecodeError
| OSError
| RecursionError.

(** [raise ValueError("Amount must be positive.")] *)
Definition InvalidAmount : exn := ValueError "Amount must be positive.".

(** The result of a call.  The records of this development carry fields of
    their annotated types ([id: int], [title: str], [description: str],
    [amount: float], [date: str]); Python itself would store any value.
    [Untyped] marks a call that raises nothing and returns a record with a
    field outside its annotation: the development says nothing more about
    such a call. *)
Inductive outcome (A : Type) : Type :=
| Return (a : A)
| Raise (e : exn)
| Untyped.

Arguments Return {A} a.
Arguments Raise {A} e.
Arguments Untyped {A}.

Definition bind {A B : Type} (c : outcome A) (k : A -> outcome B) : outcome B :=
  match c with
  | Return a => k a
  | Raise e => Raise e
  | Untyped => Untyped
  end.

Notation "x <- c ;; k" := (bind c (fun x => k))
  (at level 61, c at next level, right associativity).

(** ** class datetime *)

Module datetime.

(** The fields of a [datetime] the program reads. *)
Record t : Type := make { year : Z; month : Z; day : Z }.

Definition digit (n : Z) : ascii := ascii_of_nat (48 + Z.to_nat (n mod 10)).

Definition pad2 (n : Z) : string :=
  String (digit (n / 10)) (String (digit n) "").

Definition pad4 (n : Z) : string :=
  String (digit (n / 1000)) (String (digit (n / 100)) (pad2 n)).

(** [d.strftime("%d-%m-%Y")], for a year of four digits. *)
Definition strftime (d : t) : string :=
  (pad2 (day d) ++ "-" ++ pad2 (month d) ++ "-" ++ pad4 (year d))%string.

(** *** [datetime.strptime(text, "%d-%m-%Y")]

    The library compiles the format to the regular expression
    [(3[0-1]|[1-2]\d|0[1-9]|[1-9]| [1-9])-(1[0-2]|0[1-9]|[1-9])-(\d\d\d\d)],
    wants it to match the whole text, and then builds the date, which
    fails for a year 0 and for a day the month does not have.  No
    alternative holds a dash, so the day is the text before the first
    dash and the month the text before the second.  Texts are taken over
    ASCII. *)

Definition is_digit (c : ascii) : bool :=
  ((48 <=? nat_of_ascii c) && (nat_of_ascii c <=? 57))%nat.

Definition digit_value (c : ascii) : Z := Z.of_nat (nat_of_ascii c) - 48.

Definition between (lo hi c : ascii) : bool :=
  ((nat_of_ascii lo <=? nat_of_ascii c) && (nat_of_ascii c <=? nat_of_ascii hi))%nat.

(** [3[0-1]|[1-2]\d|0[1-9]|[1-9]| [1-9]] *)
Definition parse_day (token : string) : option Z :=
  match token with
  | String a (String b EmptyString) =>
      if Ascii.eqb a "3" && between "0" "1" b then Some (30 + digit_value b)
      else if between "1" "2" a && is_digit b then Some (10 * digit_value a + digit_value b)
      else if Ascii.eqb a "0" && between "1" "9" b then Some (digit_value b)
      else if Ascii.eqb a " " && between "1" "9" b then Some (digit_value b)
      else None
  | String a EmptyString => if between "1" "9" a then Some (digit_value a) else None
  | _ => None
  end.

(** [1[0-2]|0[1-9]|[1-9]] *)
Definition parse_month (token : string) : option Z :=
  match token with
  | String a (String b EmptyString) =>
      if Ascii.eqb a "1" && between "0" "2" b then Some (10 + digit_value b)
      else if Ascii.eqb a "0" && between "1" "9" b then Some (digit_value b)
      else None
  | String a EmptyString => if between "1" "9" a then Some (digit_value a) else None
  | _ => None
  end.

(** [\d\d\d\d], up to the end of the text *)
Definition parse_year (token : string) : option Z :=
  match token with
  | String a (String b (String c (String d EmptyString))) =>
      if is_digit a && is_digit b && is_digit c && is_digit d
      then Some (1000 * digit_value a + 100 * digit_value b
                 + 10 * digit_value c + digit_value d)
      else None
  | _ => None
  end.

(** The text before the first dash, and the text after it if there is a
    dash. *)
Fixpoint split_dash (text : string) : string * option string :=
  match text with
  | EmptyString => (EmptyString, None)
  | String c rest =>
      if Ascii.eqb c "-" then (EmptyString, Some rest)
      else let (token, after) := split_dash rest in (String c token, after)
  end.

Definition is_leap (y : Z) : bool :=
  ((y mod 4 =? 0) && negb (y mod 100 =? 0)) || (y mod 400 =? 0).

Definition days_in_month (y m : Z) : Z :=
  if m =? 2 then (if is_leap y then 29 else 28)
  else if (m =? 4) || (m =? 6) || (m =? 9) || (m =? 11) then 30
  else 31.

(** The dates the constructor of [datetime] accepts. *)
Definition valid (d : t) : bool :=
  (1 <=? year d) && (year d <=? 9999)
  && (1 <=? month d) && (month d <=? 12)
  && (1 <=? day d) && (day d <=? days_in_month (year d) (month d)).

Definition strptime (text : string) : option t :=
  match split_dash text with
  | (day_token, Some rest) =>
      match split_dash rest with
      | (month_token, Some year_token) =>
          match parse_day day_token, parse_month month_token, parse_year year_token with
          | Some d, Some m, Some y =>
              let date := {| year := y; month := m; day := d |} in
              if valid date then Some date else None
          | _, _, _ => None
          end
      | _ => None
      end
  | _ => None
  end.

End datetime.

(** ** class Expense *)

Module Expense.

Record t : Type := make {
  id : Z;
  title : string;
  description : string;
  amount : float;
  date : string
}.

(** [bool(s)] of a string: the empty string is falsy. *)
Definition truthy (s : string) : bool :=
  match s with
  | EmptyString => false
  | String _ _ => true
  end.

(** [__init__]; [date = None] is the parameter's default, and
    [date or datetime.now().strftime("%d-%m-%Y")] takes the clock
    whenever [date] is falsy. *)
Definition init (now : datetime.t) (id : Z) (title description : string)
    (amount : float) (date : option string) : t :=
  {| id := id;
     title := title;
     description := description;
     amount := amount;
     date := match date with
             | Some s => if truthy s then s else datetime.strftime now
             | None => datetime.strftime now
             end |}.

Definition to_dict (self : t) : value :=
  VDict [ ("id", VInt (id self));
          ("title", VStr (title self));
          ("description", VStr (description self));
          ("amount", VFloat (amount self));
          ("date", VStr (date self)) ].

(** [d[key]] on a dict. *)
Fixpoint getitem (key : string) (entries : list (string * value)) : outcome value :=
  match entries with
  | [] => Raise (KeyError key)
  | (k, v) :: rest => if (k =? key)%string then Return v else getitem key rest
  end.

(** [data[key]] with a string key: only a dict can be indexed by a
    string, every other value raises [TypeError]. *)
Definition subscript (data : value) (key : string) : outcome value :=
  match data with
  | VDict entries => getitem key entries
  | _ => Raise TypeError
  end.

(** The call [cls(id=.., title=.., description=.., amount=.., date=..)] on
    the values read from the mapping. *)
Definition cls (now : datetime.t) (id title description amount date : value)
    : outcome t :=
  match id, title, description, amount, date with
  | VInt i, VStr ti, VStr de, VFloat a, VStr s => Return (init now i ti de a (Some s))
  | VInt i, VStr ti, VStr de, VFloat a, VNone => Return (init now i ti de a None)
  | _, _, _, _, _ => Untyped
  end.

(** [from_dict]: the five lookups, in the order of the keyword arguments,
    then the constructor. *)
Definition from_dict (now : datetime.t) (data : value) : outcome t :=
  id <- subscript data "id" ;;
  title <- subscript data "title" ;;
  description <- subscript data "description" ;;
  amount <- subscript data "amount" ;;
  date <- subscript data "date" ;;
  cls now id title description amount date.

Definition set_title (v : string) (self : t) : t :=
  {| id := id self; title := v; description := description self;
     amount := amount self; date := date self |}.

Definition set_description (v : string) (self : t) : t :=
  {| id := id self; title := title self; description := v;
     amount := amount self; date := date self |}.

Definition set_amount (v : float) (self : t) : t :=
  {| id := id self; title := title self; description := description self;
     amount := v; date := date self |}.

End Expense.

(** ** class ExpenseTracker *)

Module ExpenseTracker.

(** What the file at [self.data_file] is to
    [with open(self.data_file, 'r') as f: data = json.load(f)]: a file on
    which these lines raise an exception, or the document they decode.
    They raise [JSONDecodeError] on a text that is no JSON,
    [UnicodeDecodeError] on bytes that are no text, [OSError] on a path
    that cannot be opened or read, [RecursionError] on a document nested
    too deep, [ValueError] on a number with more digits than [int] takes.
    [json.dump] followed by [json.load] gives the document back. *)
Inductive content : Type :=
| Failing (e : exn)
| Document (data : value).

(** The tracker with the file behind its path; [None] when
    [os.path.exists(self.data_file)] is false. *)
Record t : Type := make {
  data_file : option content;
  expenses : list Expense.t
}.

Definition json_load (c : content) : outcome value :=
  match c with
  | Failing e => Raise e
  | Document data => Return data
  end.

(** [for expense_data in data]: a list gives its items, a dict its keys,
    a string its characters; nothing else is iterable. *)
Definition iter (data : value) : outcome (list value) :=
  match data with
  | VList items => Return items
  | VDict entries => Return (map (fun kv => VStr (fst kv)) entries)
  | VStr s => Return (map (fun c => VStr (String c "")) (list_ascii_of_string s))
  | _ => Raise TypeError
  end.

(** [[Expense.from_dict(expense_data) for expense_data in data]]: the
    first exception met, in the order of the items, ends the loop.  An
    item that gives a record outside the annotations raises nothing, so
    the loop goes on and a later exception still shows. *)
Fixpoint comprehension (now : datetime.t) (items : list value)
    : outcome (list Expense.t) :=
  match items with
  | [] => Return []
  | expense_data :: rest =>
      match Expense.from_dict now expense_data with
      | Raise e => Raise e
      | Return expense =>
          match comprehension now rest with
          | Return l => Return (expense :: l)
          | Raise e => Raise e
          | Untyped => Untyped
          end
      | Untyped =>
          match comprehension now rest with
          | Raise e => Raise e
          | _ => Untyped
          end
      end
  end.

Definition load_expenses (now : datetime.t) (file : option content)
    : outcome (list Expense.t) :=
  match file with
  | None => Return []
  | Some c =>
      match (data <- json_load c ;;
             items <- iter data ;;
             comprehension now items) with
      | Raise JSONDecodeError => Return []
      | Raise (KeyError _) => Return []
      | r => r
      end
  end.

(** [__init__] *)
Definition init (now : datetime.t) (file : option content) : outcome t :=
  expenses <- load_expenses now file ;;
  Return {| data_file := file; expenses := expenses |}.

(** [save_expenses]: the file is opened with ['w'] and holds the dumped
    list afterwards; a write that the system refuses is left out. *)
Definition save_expenses (self : t) : t :=
  {| data_file := Some (Document (VList (map Expense.to_dict (expenses self))));
     expenses := expenses self |}.

(** [max(expense.id for expense in self.expenses)] on a list that is not
    empty. *)
Definition max_id (first : Expense.t) (rest : list Expense.t) : Z :=
  fold_left (fun m expense => Z.max m (Expense.id expense)) rest (Expense.id first).

Definition get_next_id (self : t) : Z :=
  match expenses self with
  | [] => 1
  | first :: rest => max_id first rest + 1
  end.

Definition add_expense (now : datetime.t) (title description : string)
    (amount : float) (self : t) : outcome Expense.t * t :=
  if (amount <=? 0)%float then (Raise InvalidAmount, self)
  else
    let expense :=
      Expense.init now (get_next_id self) title description amount None in
    let self' := {| data_file := data_file self;
                    expenses := (expenses self ++ [expense])%list |} in
    (Return expense, save_expenses self').

(** The index at which a [for] loop over the list first meets a record
    with the given id, counted from [i]. *)
Fixpoint find_id (expense_id : Z) (i : nat) (l : list Expense.t) : option nat :=
  match l with
  | [] => None
  | expense :: rest =>
      if Expense.id expense =? expense_id then Some i
      else find_id expense_id (S i) rest
  end.

(** [del l[i]] *)
Definition del (i : nat) (l : list Expense.t) : list Expense.t :=
  (firstn i l ++ skipn (S i) l)%list.

Definition delete_expense (expense_id : Z) (self : t) : outcome bool * t :=
  match find_id expense_id 0 (expenses self) with
  | Some i =>
      let self' := {| data_file := data_file self;
                      expenses := del i (expenses self) |} in
      (Return true, save_expenses self')
  | None => (Return false, self)
  end.

(** An assignment to an attribute of the record at index [i]: the record
    is the one the list holds, so the list shows the new value. *)
Fixpoint assign (f : Expense.t -> Expense.t) (i : nat) (l : list Expense.t)
    : list Expense.t :=
  match l, i with
  | [], _ => []
  | expense :: rest, O => f expense :: rest
  | expense :: rest, S j => expense :: assign f j rest
  end.

Definition assign_at (f : Expense.t -> Expense.t) (i : nat) (self : t) : t :=
  {| data_file := data_file self; expenses := assign f i (expenses self) |}.

Definition update_expense (expense_id : Z) (title description : option string)
    (amount : option float) (self : t) : outcome bool * t :=
  match find_id expense_id 0 (expenses self) with
  | Some i =>
      let self1 := match title with
                   | Some v => assign_at (Expense.set_title v) i self
                   | None => self
                   end in
      let self2 := match description with
                   | Some v => assign_at (Expense.set_description v) i self1
                   | None => self1
                   end in
      match amount with
      | Some v =>
          if (v <=? 0)%float then (Raise InvalidAmount, self2)
          else (Return true, save_expenses (assign_at (Expense.set_amount v) i self2))
      | None => (Return true, save_expenses self2)
      end
  | None => (Return false, self)
  end.

Definition list_expenses (self : t) : list Expense.t := expenses self.

(** The objects the filter of [get_total_expenses] compares, and Python's
    [==] on them: a [datetime] and an [int] are never equal (both
    [__eq__] answer [NotImplemented], and the two are not the same
    object). *)
Inductive object : Type :=
| Int (n : Z)
| Datetime (d : datetime.t).

Definition datetime_eqb (a b : datetime.t) : bool :=
  (datetime.year a =? datetime.year b)
  && (datetime.month a =? datetime.month b)
  && (datetime.day a =? datetime.day b).

Definition py_eq (a b : object) : bool :=
  match a, b with
  | Int m, Int n => m =? n
  | Datetime d, Datetime e => datetime_eqb d e
  | _, _ => false
  end.

Section Summary.

(** [datetime.strptime(text, "%d-%m-%Y")]: the date it returns, or
    [None] when it raises [ValueError]. *)
Variable strptime : string -> option datetime.t.

(** The body of the loop of [get_total_expenses], from the running
    [total] on. *)
Fixpoint total_from (month : option Z) (current_year : Z) (total : float)
    (l : list Expense.t) : outcome float :=
  match l with
  | [] => Return total
  | expense :: rest =>
      match strptime (Expense.date expense) with
      | None => Raise (StrptimeError (Expense.date expense))
      | Some expense_date =>
          match month with
          | None =>
              total_from month current_year (total + Expense.amount expense)%float rest
          | Some m =>
              if (datetime.month expense_date =? m)
                 && py_eq (Datetime expense_date) (Int current_year)
              then total_from month current_year (total + Expense.amount expense)%float rest
              else total_from month current_year total rest
          end
      end
  end.

Definition get_total_expenses (now : datetime.t) (month : option Z) (self : t)
    : outcome float :=
  total_from month (datetime.year now) 0%float (expenses self).

End Summary.

End ExpenseTracker.

(** ** Sequences of calls *)

Import ExpenseTracker.

(** A call that changes the tracker, with its arguments and, for
    [add_expense], the clock at the call. *)
Inductive op : Type :=
| Add (now : datetime.t) (title description : string) (amount : float)
| Delete (expense_id : Z).

Definition step (self : t) (o : op) : t :=
  match o with
  | Add now title description amount =>
      snd (add_expense now title description amount self)
  | Delete expense_id => snd (delete_expense expense_id self)
  end.

Definition run (ops : list op) (self : t) : t := fold_left step ops self.

Definition is_add (o : op) : bool :=
  match o with
  | Add _ _ _ _ => true
  | Delete _ => false
  end.

(** The clock of a call shows a date of the calendar with a year of four
    digits. *)
Definition valid_clock (o : op) : bool :=
  match o with
  | Add now _ _ _ => datetime.valid now && (1000 <=? datetime.year now)
  | Delete _ => true
  end.

Definition ids (self : t) : list Z := map Expense.id (expenses self).

(** The ids of the records that the calls of [add_expense] in a sequence
    return, in the order of the calls; a call that raises returns none. *)
Fixpoint assigned (ops : list op) (self : t) : list Z :=
  match ops with
  | [] => []
  | o :: rest =>
      (match o with
       | Add now title description amount =>
           match fst (add_expense now title description amount self) with
           | Return expense => [Expense.id expense]
           | _ => []
           end
       | Delete _ => []
       end ++ assigned rest (step self o))%list
  end.

(** A call of [add_expense] with an amount that passes its test. *)
Definition accepted (o : op) : bool :=
  match o with
  | Add _ _ _ amount => negb (amount <=? 0)%float
  | Delete _ => false
  end.

(** ** The words of the specification *)

(** The sum of the amounts, added up from [0.0] in the order of the list. *)
Definition sum_amounts (l : list Expense.t) : float :=
  fold_left PrimFloat.add (map Expense.amount l) 0%float.

(** The monthly filter: the month of the parsed date is the given one and
    the parsed date equals the current year. *)
Definition in_month (strptime : string -> option datetime.t) (m current_year : Z)
    (e : Expense.t) : bool :=
  match strptime (Expense.date e) with
  | Some d => (datetime.month d =? m) && py_eq (Datetime d) (Int current_year)
  | None => false
  end.

(** A record after the assignments of [update_expense] to its title and
    description, where they are supplied. *)
Definition edited (title description : option string) (e : Expense.t) : Expense.t :=
  {| Expense.id := Expense.id e;
     Expense.title := match title with Some v => v | None => Expense.title e end;
     Expense.description :=
       match description with Some v => v | None => Expense.description e end;
     Expense.amount := Expense.amount e;
     Expense.date := Expense.date e |}.

(** A text in the form DD-MM-YYYY: a date of the calendar written with two
    digits for the day, two for the month and four for the year. *)
Definition is_dmy (text : string) : Prop :=
  exists d, datetime.valid d = true /\ text = datetime.strftime d.

(** A record of the data model: a positive id, a title, a positive amount
    and a date that [strptime] reads. *)
Definition well_formed (e : Expense.t) : Prop :=
  0 < Expense.id e
  /\ Expense.title e <> ""
  /\ (0 <? Expense.amount e)%float = true
  /\ datetime.strptime (Expense.date e) <> None.

(** The fields a stored record must have, and the items of a document
    that have them all. *)
Definition required_fields : list string :=
  ["id"; "title"; "description"; "amount"; "date"].

Definition is_record (item : value) : bool :=
  match item with
  | VDict _ => true
  | _ => false
  end.

Definition has_field (item : value) (key : string) : bool :=
  match Expense.subscript item key with
  | Return _ => true
  | _ => false
  end.

Definition complete (item : value) : bool :=
  forallb (has_field item) required_fields.

(** ** Sample data *)

Definition coffee : Expense.t :=
  {| Expense.id := 1; Expense.title := "Coffee"; Expense.description := "morning";
     Expense.amount := 3.5%float; Expense.date := "03-11-2026" |}.

Definition book : Expense.t :=
  {| Expense.id := 2; Expense.title := "Book"; Expense.description := "novel";
     Expense.amount := 12%float; Expense.date := "04-11-2026" |}.

Definition two_records : t :=
  save_expenses {| data_file := None; expenses := [coffee; book] |}.

Definition undated : Expense.t :=
  {| Expense.id := 3; Expense.title := "Pen"; Expense.description := "office";
     Expense.amount := 1.5%float; Expense.date := "yesterday" |}.

Definition today : datetime.t := datetime.make 2026 11 5.

(** A tracker on a file in which the date of a record was edited. *)
Definition with_undated : t :=
  save_expenses {| data_file := None; expenses := [coffee; undated] |}.

(** A stored record with an empty date. *)
Definition stored_without_date : value :=
  VDict [ ("id", VInt 4); ("title", VStr "Tea"); ("description", VStr "green");
          ("amount", VFloat 2%float); ("date", VStr "") ].

(** ** Calls of the three methods that write *)

Inductive call : Type :=
| CallAdd (now : datetime.t) (title description : string) (amount : float)
| CallDelete (expense_id : Z)
| CallUpdate (expense_id : Z) (title description : option string)
    (amount : option float).

(** The tracker after a call, whether the call returned or raised. *)
Definition perform (self : t) (c : call) : t :=
  match c with
  | CallAdd now title description amount =>
      snd (add_expense now title description amount self)
  | CallDelete expense_id => snd (delete_expense expense_id self)
  | CallUpdate expense_id title description amount =>
      snd (update_expense expense_id title description amount self)
  end.


Definition perform_all (calls : list call) (self : t) : t :=
  fold_left perform calls self.

(** The clock of a call shows a date of the calendar with a year of four
    digits. *)
Definition clock_ok (c : call) : bool :=
  match c with
  | CallAdd now _ _ _ => datetime.valid now && (1000 <=? datetime.year now)
  | _ => true
  end.

(** The clock of a call, where the call reads it, has the property. *)
Definition clocked (clock : datetime.t -> Prop) (c : call) : Prop :=
  match c with
  | CallAdd now _ _ _ => clock now
  | _ => True
  end.

(** A clock that shows a date of the calendar with a year of four digits. *)
Definition four_digit_clock (now : datetime.t) : Prop :=
  datetime.valid now = true /\ 1000 <= datetime.year now.

(** The file [save_expenses] writes for a list of records. *)
Definition dump (l : list Expense.t) : option content :=
  Some (Document (VList (map Expense.to_dict l))).

(** The test that [add_expense] and [update_expense] put on an amount:
    [amount <= 0] is false. *)
Definition guarded (e : Expense.t) : Prop :=
  (Expense.amount e <=? 0)%float = false.

(** A record after [update_expense] assigned what was supplied. *)
Definition revised (title description : option string) (amount : option float)
    (e : Expense.t) : Expense.t :=
  {| Expense.id := Expense.id e;
     Expense.title := match title with Some v => v | None => Expense.title e end;
     Expense.description :=
       match description with Some v => v | None => Expense.description e end;
     Expense.amount := match amount with Some v => v | None => Expense.amount e end;
     Expense.date := Expense.date e |}.

(** A record as the constructor stores it when it is given the fields of
    [e]: an empty date gives way to the date of the day. *)
Definition redated (now : datetime.t) (e : Expense.t) : Expense.t :=
  Expense.init now (Expense.id e) (Expense.title e) (Expense.description e)
    (Expense.amount e) (Some (Expense.date e)).

(** The keys of [required_fields] that a dict lacks, in their order. *)
Definition missing_fields (entries : list (string * value)) : list string :=
  filter (fun key => negb (has_field (VDict entries) key)) required_fields.

(** A document over which the loop of [load_expenses] runs no step. *)
Definition empty_container (data : value) : bool :=
  match data with
  | VList [] | VDict [] | VStr EmptyString => true
  | _ => false
  end.

Definition is_list (data : value) : bool :=
  match data with
  | VList _ => true
  | _ => false
  end.

(** ** The command line *)

Module Cli.

(** What [main] takes from the standard library without showing how it is
    made: [f"{amount:.2f}"], [datetime.strptime(text, "%d-%m-%Y")], the
    text [str(e)] of an exception that the library raised, and what
    [parser.print_help()] prints. *)
Record library : Type := {
  format_2f : float -> string;
  strptime : string -> option datetime.t;
  message : exn -> string;
  help : string
}.

(** [args], as [parser.parse_args()] returns it: the command and the
    attributes of its parser, an option that was left out being [None]. *)
Inductive args : Type :=
| NoCommand
| AddCommand (title description : string) (amount : float)
| DeleteCommand (id : Z)
| UpdateCommand (id : Z) (title description : option string)
    (amount : option float)
| ListCommand
| SummaryCommand (month : option Z).

Definition format_currency (lib : library) (amount : float) : string :=
  format_2f lib amount.

(** [str(n)] of an [int] *)
Definition str_int (n : Z) : string := NilZero.string_of_int (Z.to_int n).

(** [str(e)]: the message, for a [ValueError] raised with one. *)
Definition str (lib : library) (e : exn) : string :=
  match e with
  | ValueError msg => msg
  | _ => message lib e
  end.

Fixpoint replicate (n : nat) (c : ascii) : string :=
  match n with
  | O => EmptyString
  | S k => String c (replicate k c)
  end.

(** A byte that goes on a character begun before it, in UTF-8: [10xxxxxx]. *)
Definition continuation (c : ascii) : bool :=
  ((128 <=? nat_of_ascii c) && (nat_of_ascii c <? 192))%nat.

(** [len(s)]: the number of characters of a text, which is held as its
    bytes in UTF-8; every character has one byte that is no continuation. *)
Fixpoint len (s : string) : nat :=
  match s with
  | EmptyString => O
  | String c rest => ((if continuation c then 0 else 1) + len rest)%nat
  end.

(** [f"{s:<width}"]: the text, then blanks up to the width, which counts
    characters. *)
Definition ljust (width : nat) (s : string) : string :=
  (s ++ replicate (width - len s) " ")%string.

Definition row (lib : library) (expense : Expense.t) : string :=
  (ljust 4 (str_int (Expense.id expense)) ++ " "
   ++ ljust 12 (Expense.date expense) ++ " "
   ++ ljust 20 (Expense.description expense) ++ " "
   ++ ljust 10 (format_currency lib (Expense.amount expense)))%string.

(** [print_expenses]: the lines printed, one for each call of [print]. *)
Definition print_expenses (lib : library) (expenses : list Expense.t) : list string :=
  match expenses with
  | [] => ["No expenses found."]
  | _ =>
      (ljust 4 "ID" ++ " " ++ ljust 12 "Date" ++ " " ++ ljust 20 "Description"
       ++ " " ++ ljust 10 "Amount")%string
      :: replicate 50 "-"
      :: map (row lib) expenses
  end.

(** [datetime(2000, month, 1).strftime("%B")], for a month from 1 to 12. *)
Definition month_name (month : Z) : string :=
  match month with
  | 1 => "January" | 2 => "February" | 3 => "March" | 4 => "April"
  | 5 => "May" | 6 => "June" | 7 => "July" | 8 => "August"
  | 9 => "September" | 10 => "October" | 11 => "November" | _ => "December"
  end.

(** Truth values of the attributes of [args]. *)
Definition given (s : option string) : bool :=
  match s with
  | Some v => Expense.truthy v
  | None => false
  end.

Definition given_amount (amount : option float) : bool :=
  match amount with
  | Some v => negb (v =? 0)%float
  | None => false
  end.

Definition given_month (month : option Z) : bool :=
  match month with
  | Some m => negb (m =? 0)
  | None => false
  end.

(** The body of the [try] of [main]: what it prints, or what it raises,
    and the tracker afterwards.  [main] returns before the [try] when there
    is no command; in the summary, [if args.month] sends a month that is
    [None] or [0] to the branch without a month. *)
Definition command (lib : library) (now : datetime.t) (a : args) (tracker : t)
    : outcome (list string) * t :=
  match a with
  | NoCommand => (Return [], tracker)
  | AddCommand title description amount =>
      match add_expense now title description amount tracker with
      | (Return expense, tracker') =>
          (Return [("Expense added successfully (ID: "
                    ++ str_int (Expense.id expense) ++ ")")%string], tracker')
      | (Raise e, tracker') => (Raise e, tracker')
      | (Untyped, tracker') => (Untyped, tracker')
      end
  | DeleteCommand id =>
      match delete_expense id tracker with
      | (Return true, tracker') => (Return ["Expense deleted successfully"], tracker')
      | (Return false, tracker') =>
          (Return [("Error: Expense with ID " ++ str_int id ++ " not found")%string],
           tracker')
      | (Raise e, tracker') => (Raise e, tracker')
      | (Untyped, tracker') => (Untyped, tracker')
      end
  | UpdateCommand id title description amount =>
      if given title && negb (given description) && negb (given_amount amount)
      then (Return ["Error: Please provide either --description or --amount to update"],
            tracker)
      else
        match update_expense id title description amount tracker with
        | (Return true, tracker') => (Return ["Expense updated successfully"], tracker')
        | (Return false, tracker') =>
            (Return [("Error: Expense with ID " ++ str_int id ++ " not found")%string],
             tracker')
        | (Raise e, tracker') => (Raise e, tracker')
        | (Untyped, tracker') => (Untyped, tracker')
        end
  | ListCommand => (Return (print_expenses lib (list_expenses tracker)), tracker)
  | SummaryCommand month =>
      match (if given_month month then month else None) with
      | Some m =>
          if (m <? 1) || (m >? 12)
          then (Return ["Error: Month must be between 1 and 12"], tracker)
          else
            match get_total_expenses (strptime lib) now (Some m) tracker with
            | Return total =>
                (Return [("Total expenses for " ++ month_name m ++ ": "
                          ++ format_currency lib total)%string], tracker)
            | Raise e => (Raise e, tracker)
            | Untyped => (Untyped, tracker)
            end
      | None =>
          match get_total_expenses (strptime lib) now None tracker with
          | Return total =>
              (Return [("Total expenses: " ++ format_currency lib total)%string],
               tracker)
          | Raise e => (Raise e, tracker)
          | Untyped => (Untyped, tracker)
          end
      end
  end.

(** The two [except] clauses of [main]: [JSONDecodeError],
    [UnicodeDecodeError] and the error of [strptime] are [ValueError]s
    too. *)
Definition handled (lib : library) (r : outcome (list string)) : outcome (list string) :=
  match r with
  | Raise (ValueError msg) => Return [("Error: " ++ str lib (ValueError msg))%string]
  | Raise (StrptimeError text) =>
      Return [("Error: " ++ str lib (StrptimeError text))%string]
  | Raise JSONDecodeError => Return [("Error: " ++ str lib JSONDecodeError)%string]
  | Raise UnicodeDecodeError =>
      Return [("Error: " ++ str lib UnicodeDecodeError)%string]
  | Raise e => Return [("Unexpected error: " ++ str lib e)%string]
  | _ => r
  end.

(** [main], from the file and the parsed arguments to what is printed and
    the file afterwards.  The tracker is built before the [try], so what
    [load_expenses] raises leaves [main]; the clock shows one date during
    the run. *)
Definition main (lib : library) (now : datetime.t) (file : option content)
    (a : args) : outcome (list string) * option content :=
  match init now file with
  | Return tracker =>
      match a with
      | NoCommand => (Return [help lib], file)
      | _ =>
          let (r, tracker') := command lib now a tracker in
          (handled lib r, data_file tracker')
      end
  | Raise e => (Raise e, file)
  | Untyped => (Untyped, file)
  end.


End Cli.

(** A library for the examples: amounts are not printed. *)
Definition plain : Cli.library :=
  {| Cli.format_2f := fun _ => "0.00";
     Cli.strptime := datetime.strptime;
     Cli.message := fun _ => "";
     Cli.help := "usage" |}.

(** * Properties *)

(** ** The scan for an id *)

Section Scan.

Variable expense_id : Z.

Lemma find_id_None (l : list Expense.t) (i : nat) :
  find_id expense_id i l = None <->
  (forall e, In e l -> Expense.id e <> expense_id).
Proof.
  revert i. induction l as [|x l IH]; intros i; simpl.
  - split; [intros _ e [] | reflexivity].
  - destruct (Z.eqb_spec (Expense.id x) expense_id) as [Heq|Hne].
    + split; [discriminate|]. intros H. exfalso. apply (H x); auto.
    + rewrite IH. split.
      * intros H e [<-|Hin]; auto.
      * intros H e Hin. apply H. now right.
Qed.

(** A scan that stops at index [j] splits the list around the first
    record with the id. *)
Lemma find_id_Some (l : list Expense.t) (i j : nat) :
  find_id expense_id i l = Some j ->
  exists before e after,
    l = (before ++ e :: after)%list
    /\ (forall x, In x before -> Expense.id x <> expense_id)
    /\ Expense.id e = expense_id
    /\ j = (i + List.length before)%nat.
Proof.
  revert i. induction l as [|x l IH]; intros i; simpl; [discriminate|].
  destruct (Z.eqb_spec (Expense.id x) expense_id) as [Heq|Hne].
  - intros [= <-]. exists [], x, l. simpl.
    repeat split; auto; try lia; intros ? [].
  - intros H. destruct (IH _ H) as (before & e & after & -> & Hb & He & ->).
    exists (x :: before), e, after. simpl.
    repeat split; auto; try lia; intros y [<-|Hin]; auto.
Qed.

Lemma find_id_In (l : list Expense.t) (e : Expense.t) :
  In e l -> Expense.id e = expense_id ->
  exists j, find_id expense_id 0 l = Some j.
Proof.
  intros Hin Hid. destruct (find_id expense_id 0 l) as [j|] eqn:E; [now exists j|].
  exfalso. apply (proj1 (find_id_None l 0) E e Hin Hid).
Qed.

End Scan.

Lemma assign_middle (f : Expense.t -> Expense.t) (before after : list Expense.t)
    (e : Expense.t) :
  assign f (List.length before) (before ++ e :: after) = (before ++ f e :: after)%list.
Proof.
  induction before as [|x before IH]; simpl; [reflexivity|]. now rewrite IH.
Qed.

Lemma del_middle (before after : list Expense.t) (e : Expense.t) :
  del (List.length before) (before ++ e :: after) = (before ++ after)%list.
Proof.
  unfold del. induction before as [|x before IH]; [reflexivity|].
  change (x :: (firstn (List.length before) (before ++ e :: after)
                ++ skipn (S (List.length before)) (before ++ e :: after))%list
          = x :: (before ++ after)%list).
  now rewrite IH.
Qed.

(** ** Adding with an amount that is not positive *)

(** C3: [add_expense] with [amount <= 0] raises the [ValueError] for a bad
    amount and hands back the tracker as it was: the list of records and
    the file are those before the call. *)
Theorem add_expense_rejects_nonpositive (now : datetime.t)
    (title description : string) (amount : float) (self : t) :
  (amount <=? 0)%float = true ->
  add_expense now title description amount self = (Raise InvalidAmount, self).
Proof.
  intros H. unfold add_expense. now rewrite H.
Qed.

Lemma add_expense_rejects_nonpositive_witness :
  add_expense today "Pen" "office" (-5)%float two_records
  = (Raise InvalidAmount, two_records).
Proof.
  apply (add_expense_rejects_nonpositive today "Pen" "office"
           (-5)%float two_records).
  reflexivity.
Defined.

(** ** Deleting an id that is not there *)

(** C8: when no record has the id, [delete_expense] returns [False] and
    the tracker is the one before the call: no record is removed and
    [save_expenses] does not run, so the file keeps its content. *)
Theorem delete_expense_absent (expense_id : Z) (self : t) :
  (forall e, In e (expenses self) -> Expense.id e <> expense_id) ->
  delete_expense expense_id self = (Return false, self).
Proof.
  intros H. unfold delete_expense.
  now rewrite (proj2 (find_id_None expense_id (expenses self) 0) H).
Qed.

Lemma delete_expense_absent_witness :
  delete_expense 7 two_records = (Return false, two_records).
Proof.
  apply (delete_expense_absent 7 two_records).
  intros e [<-|[<-|[]]]; discriminate.
Defined.

(** ** Updating with an amount that is not positive *)

(** C2: when a record has the id and the amount supplied is [<= 0],
    [update_expense] raises the [ValueError] for a bad amount.  The first
    record with the id then carries the title and the description that were
    supplied, its amount is unchanged, the other records are untouched, and
    the file is the one before the call, since [save_expenses] did not
    run. *)
Theorem update_expense_rejects_nonpositive (expense_id : Z)
    (title description : option string) (v : float) (self : t) :
  (exists e, In e (expenses self) /\ Expense.id e = expense_id) ->
  (v <=? 0)%float = true ->
  exists before e after,
    expenses self = (before ++ e :: after)%list
    /\ (forall x, In x before -> Expense.id x <> expense_id)
    /\ Expense.id e = expense_id
    /\ update_expense expense_id title description (Some v) self
       = (Raise InvalidAmount,
          {| data_file := data_file self;
             expenses := (before ++ edited title description e :: after)%list |}).
Proof.
  intros (e0 & Hin & Hid) Hv.
  destruct (find_id_In expense_id (expenses self) e0 Hin Hid) as (j & Hj).
  destruct (find_id_Some expense_id _ 0 j Hj) as (before & e & after & Hl & Hb & He & ->).
  exists before, e, after. repeat split; auto.
  unfold update_expense. rewrite Hj, Hv. f_equal.
  destruct self as [file l]. simpl in *. subst l.
  destruct title as [ti|], description as [de|]; unfold assign_at; simpl;
    rewrite ?assign_middle; destruct e; reflexivity.
Qed.

Lemma update_expense_rejects_nonpositive_witness :
  exists before e after,
    expenses two_records = (before ++ e :: after)%list
    /\ (forall x, In x before -> Expense.id x <> 2)
    /\ Expense.id e = 2
    /\ update_expense 2 (Some "Atlas") None (Some (-5)%float) two_records
       = (Raise InvalidAmount,
          {| data_file := data_file two_records;
             expenses := (before ++ edited (Some "Atlas") None e :: after)%list |}).
Proof.
  apply (update_expense_rejects_nonpositive 2 (Some "Atlas") None (-5)%float two_records).
  - exists book. split; [simpl; auto | reflexivity].
  - reflexivity.
Defined.

(** The same call, computed: the title is the new one in memory, the file
    still holds the old one. *)
Example update_expense_partial :
  update_expense 2 (Some "Atlas") None (Some (-5)%float) two_records
  = (Raise InvalidAmount,
     {| data_file := data_file two_records;
        expenses := [coffee; Expense.set_title "Atlas" book] |}).
Proof. reflexivity. Qed.

(** ** Printing and parsing dates *)

(** Parsing what was printed gives the number back, checked on each number
    from [lo] to [hi]. *)
Lemma parse_pad_check (parse : string -> option Z) (pad : Z -> string)
    (lo hi : Z) :
  forallb (fun n => (n <? lo)
                    || match parse (pad n) with
                       | Some k => k =? n
                       | None => false
                       end)
          (map Z.of_nat (seq 0 (S (Z.to_nat hi)))) = true ->
  forall n, 0 <= lo <= n -> n <= hi -> parse (pad n) = Some n.
Proof.
  intros H n Hlo Hhi. rewrite forallb_forall in H.
  assert (Hin : In n (map Z.of_nat (seq 0 (S (Z.to_nat hi))))).
  { apply in_map_iff. exists (Z.to_nat n). split; [lia|]. apply in_seq. lia. }
  specialize (H n Hin). cbv beta in H.
  destruct (Z.ltb_spec n lo) as [|_]; [lia|]. cbn [orb] in H.
  destruct (parse (pad n)) as [k|]; [|discriminate].
  apply Z.eqb_eq in H. now subst.
Qed.

Lemma digit_not_dash (n : Z) : Ascii.eqb (datetime.digit n) "-" = false.
Proof.
  unfold datetime.digit.
  assert (H : (Z.to_nat (n mod 10) < 10)%nat)
    by (pose proof (Z.mod_pos_bound n 10); lia).
  revert H. generalize (Z.to_nat (n mod 10)). intros k H.
  do 10 (destruct k as [|k]; [reflexivity|]). lia.
Qed.

Lemma split_dash_pad2 (n : Z) (rest : string) :
  datetime.split_dash (datetime.pad2 n ++ "-" ++ rest)%string
  = (datetime.pad2 n, Some rest).
Proof.
  unfold datetime.pad2. cbn [append datetime.split_dash].
  now rewrite !digit_not_dash.
Qed.

Lemma parse_day_pad2 (d : Z) :
  1 <= d <= 31 -> datetime.parse_day (datetime.pad2 d) = Some d.
Proof.
  intros H. apply (parse_pad_check datetime.parse_day datetime.pad2 1 31);
    [vm_compute; reflexivity | lia | lia].
Qed.

Lemma parse_month_pad2 (m : Z) :
  1 <= m <= 12 -> datetime.parse_month (datetime.pad2 m) = Some m.
Proof.
  intros H. apply (parse_pad_check datetime.parse_month datetime.pad2 1 12);
    [vm_compute; reflexivity | lia | lia].
Qed.

Lemma digit_value_digit (n : Z) :
  datetime.is_digit (datetime.digit n) = true
  /\ datetime.digit_value (datetime.digit n) = n mod 10.
Proof.
  unfold datetime.digit.
  assert (H : 0 <= n mod 10 < 10) by (apply Z.mod_pos_bound; lia).
  revert H. generalize (n mod 10). intros r H.
  assert (C : r = 0 \/ r = 1 \/ r = 2 \/ r = 3 \/ r = 4
              \/ r = 5 \/ r = 6 \/ r = 7 \/ r = 8 \/ r = 9) by lia.
  repeat (destruct C as [->|C]; [split; reflexivity|]).
  subst r. split; reflexivity.
Qed.

Lemma parse_year_pad4 (y : Z) :
  0 <= y <= 9999 -> datetime.parse_year (datetime.pad4 y) = Some y.
Proof.
  intros H. unfold datetime.pad4, datetime.pad2, datetime.parse_year.
  destruct (digit_value_digit (y / 1000)) as [-> ->].
  destruct (digit_value_digit (y / 100)) as [-> ->].
  destruct (digit_value_digit (y / 10)) as [-> ->].
  destruct (digit_value_digit y) as [-> ->].
  cbn [andb]. f_equal.
  pose proof (Z.div_mod y 10). pose proof (Z.div_mod (y / 10) 10).
  pose proof (Z.div_mod (y / 100) 10). pose proof (Z.div_mod (y / 1000) 10).
  assert (E2 : y / 100 = y / 10 / 10) by (rewrite Z.div_div; [reflexivity|lia|lia]).
  assert (E3 : y / 1000 = y / 100 / 10) by (rewrite Z.div_div; [reflexivity|lia|lia]).
  assert (Hsmall : y / 1000 / 10 = 0) by (rewrite Z.div_div by lia; apply Z.div_small; lia).
  lia.
Qed.

(** [strptime] reads back what [strftime] writes. *)
Lemma strptime_strftime (d : datetime.t) :
  datetime.valid d = true -> datetime.strptime (datetime.strftime d) = Some d.
Proof.
  intros H. pose proof H as Hv. unfold datetime.valid in Hv.
  repeat (apply andb_prop in Hv; destruct Hv as [Hv ?]).
  assert (Hdim : datetime.days_in_month (datetime.year d) (datetime.month d) <= 31).
  { unfold datetime.days_in_month.
    repeat match goal with |- context [if ?b then _ else _] => destruct b end; lia. }
  unfold datetime.strptime, datetime.strftime.
  rewrite split_dash_pad2, split_dash_pad2.
  rewrite parse_day_pad2, parse_month_pad2, parse_year_pad4 by lia.
  destruct d as [y m dd]. cbn [datetime.year datetime.month datetime.day] in *.
  now rewrite H.
Qed.

Lemma is_dmy_parses (text : string) :
  is_dmy text -> datetime.strptime text <> None.
Proof.
  intros (d & Hd & ->). now rewrite (strptime_strftime d Hd).
Qed.

(** ** The summary *)

Section Totals.

Variable strptime : string -> option datetime.t.

#[local] Abbreviation parsed := (fun e : Expense.t => strptime (Expense.date e) <> None).
#[local] Abbreviation unparsed := (fun e : Expense.t => strptime (Expense.date e) = None).

(** A date is never equal to a year. *)
Lemma date_is_no_year (d : datetime.t) (current_year : Z) :
  py_eq (Datetime d) (Int current_year) = false.
Proof. reflexivity. Qed.

Lemma in_month_never (m current_year : Z) (e : Expense.t) :
  in_month strptime m current_year e = false.
Proof.
  unfold in_month. destruct (strptime (Expense.date e)); [|reflexivity].
  now rewrite date_is_no_year, andb_false_r.
Qed.

(** Without a month the loop adds every amount to the running total. *)
Lemma total_from_all (current_year : Z) (l : list Expense.t) (total : float) :
  Forall parsed l ->
  total_from strptime None current_year total l
  = Return (fold_left PrimFloat.add (map Expense.amount l) total).
Proof.
  intros H. revert total. induction H as [|e l He _ IH]; intros total; simpl.
  - reflexivity.
  - cbv beta in He. destruct (strptime (Expense.date e)); [apply IH | easy].
Qed.

(** With a month it adds the amounts of the records the filter keeps. *)
Lemma total_from_month (m current_year : Z) (l : list Expense.t) (total : float) :
  Forall parsed l ->
  total_from strptime (Some m) current_year total l
  = Return (fold_left PrimFloat.add
              (map Expense.amount (filter (in_month strptime m current_year) l))
              total).
Proof.
  intros H. revert total. induction H as [|e l He _ IH]; intros total.
  - reflexivity.
  - cbn [total_from filter]. cbv beta in He.
    destruct (strptime (Expense.date e)) as [d|] eqn:E; [|easy].
    assert (Hc : in_month strptime m current_year e
                 = (datetime.month d =? m) && py_eq (Datetime d) (Int current_year))
      by (unfold in_month; now rewrite E).
    rewrite Hc.
    destruct ((datetime.month d =? m) && py_eq (Datetime d) (Int current_year));
      cbn [map fold_left]; apply IH.
Qed.

(** The loop parses the date of every record it reaches, whatever the
    month: it ends with a total when all dates parse and with the error
    of [strptime] at the first date that does not. *)
Lemma total_from_cases (month : option Z) (current_year : Z) (l : list Expense.t)
    (total : float) :
  (Forall parsed l
   /\ exists result, total_from strptime month current_year total l = Return result)
  \/ (Exists unparsed l
      /\ exists text, strptime text = None
           /\ total_from strptime month current_year total l
              = Raise (StrptimeError text)).
Proof.
  revert total. induction l as [|e l IH]; intros total; cbn [total_from].
  - left. split; [constructor | now exists total].
  - destruct (strptime (Expense.date e)) as [d|] eqn:E.
    + assert (He : parsed e) by (cbv beta; now rewrite E).
      assert (Hstep : forall total',
        (Forall parsed (e :: l)
         /\ exists result,
              total_from strptime month current_year total' l = Return result)
        \/ (Exists unparsed (e :: l)
            /\ exists text, strptime text = None
                 /\ total_from strptime month current_year total' l
                    = Raise (StrptimeError text))).
      { intros total'. destruct (IH total') as [[Hl Hr]|[Hl Hr]].
        - left. split; [now constructor | exact Hr].
        - right. split; [now apply Exists_cons_tl | exact Hr]. }
      destruct month as [m|]; [|apply Hstep].
      destruct ((datetime.month d =? m) && py_eq (Datetime d) (Int current_year));
        apply Hstep.
    + right. split; [now apply Exists_cons_hd|].
      exists (Expense.date e). now split.
Qed.

Lemma parsed_not_unparsed (l : list Expense.t) :
  Forall parsed l -> Exists unparsed l -> False.
Proof.
  intros HF HE. apply Exists_exists in HE. destruct HE as (e & Hin & He).
  rewrite Forall_forall in HF. exact (HF e Hin He).
Qed.

End Totals.

Lemma filter_none {A : Type} (f : A -> bool) (l : list A) :
  (forall x, f x = false) -> filter f l = [].
Proof.
  intros H. induction l as [|x l IH]; simpl; [reflexivity|]. now rewrite H.
Qed.

(** C1, amended: when every date of the collection parses, the monthly
    total is the sum of the amounts of the records that pass the filter
    (the month of the parsed date is the given one, and the parsed date
    equals the current year); a date never equals a year, so no record
    passes and the total is [0.0], for every month. *)
Theorem monthly_total_is_zero (strptime : string -> option datetime.t)
    (now : datetime.t) (m : Z) (self : t) :
  Forall (fun e => strptime (Expense.date e) <> None) (expenses self) ->
  get_total_expenses strptime now (Some m) self
  = Return (sum_amounts
              (filter (in_month strptime m (datetime.year now)) (expenses self)))
  /\ (forall d, py_eq (Datetime d) (Int (datetime.year now)) = false)
  /\ (forall e, in_month strptime m (datetime.year now) e = false)
  /\ get_total_expenses strptime now (Some m) self = Return 0%float.
Proof.
  intros H. unfold get_total_expenses, sum_amounts.
  rewrite (total_from_month strptime m (datetime.year now) (expenses self) 0%float H).
  split; [reflexivity|]. split; [intros d; apply date_is_no_year|].
  split; [apply in_month_never|].
  now rewrite (filter_none _ _ (in_month_never strptime m (datetime.year now))).
Qed.

(** Both records are of November 2026 and the clock says 2026. *)
Lemma monthly_total_is_zero_witness :
  get_total_expenses datetime.strptime today (Some 11) two_records
  = Return (sum_amounts
              (filter (in_month datetime.strptime 11 (datetime.year today))
                 (expenses two_records)))
  /\ (forall d, py_eq (Datetime d) (Int (datetime.year today)) = false)
  /\ (forall e, in_month datetime.strptime 11 (datetime.year today) e = false)
  /\ get_total_expenses datetime.strptime today (Some 11) two_records = Return 0%float.
Proof.
  apply (monthly_total_is_zero datetime.strptime today 11 two_records).
  repeat constructor; discriminate.
Defined.

(** C1 as stated fails on a collection with a date that does not parse,
    as a tracker loads it from a file with such a date: the call raises
    instead of returning [0.0]. *)
Lemma monthly_total_raises_on_bad_date :
  init today (data_file with_undated) = Return with_undated
  /\ get_total_expenses datetime.strptime today (Some 11) with_undated
     = Raise (StrptimeError "yesterday")
  /\ get_total_expenses datetime.strptime today (Some 11) with_undated
     <> Return 0%float.
Proof. split; [reflexivity|]. split; [reflexivity | discriminate]. Qed.

(** C7, amended: when every date of the collection parses,
    [get_total_expenses()] without a month returns the sum of the amounts of
    all records, whatever their dates and years. *)
Theorem total_is_sum_of_amounts (strptime : string -> option datetime.t)
    (now : datetime.t) (self : t) :
  Forall (fun e => strptime (Expense.date e) <> None) (expenses self) ->
  get_total_expenses strptime now None self = Return (sum_amounts (expenses self)).
Proof.
  intros H. apply (total_from_all strptime (datetime.year now) (expenses self) 0%float H).
Qed.

Lemma total_is_sum_of_amounts_witness :
  get_total_expenses datetime.strptime today None two_records
  = Return (sum_amounts (expenses two_records)).
Proof.
  apply (total_is_sum_of_amounts datetime.strptime today two_records).
  repeat constructor; discriminate.
Defined.

Example total_of_two_records :
  get_total_expenses datetime.strptime today None two_records = Return 15.5%float.
Proof. reflexivity. Qed.

(** C7 as stated fails on a collection with a date that does not parse,
    as a tracker loads it from a file with such a date: no sum is
    returned. *)
Lemma total_raises_on_bad_date :
  init today (data_file with_undated) = Return with_undated
  /\ get_total_expenses datetime.strptime today None with_undated
     = Raise (StrptimeError "yesterday")
  /\ get_total_expenses datetime.strptime today None with_undated
     <> Return (sum_amounts (expenses with_undated)).
Proof. split; [reflexivity|]. split; [reflexivity | discriminate]. Qed.

Lemma get_total_expenses_cases (strptime : string -> option datetime.t)
    (now : datetime.t) (month : option Z) (self : t) :
  ((exists text, strptime text = None
      /\ get_total_expenses strptime now month self = Raise (StrptimeError text))
   <-> Exists (fun e => strptime (Expense.date e) = None) (expenses self))
  /\ ((exists total, get_total_expenses strptime now month self = Return total)
      <-> Forall (fun e => strptime (Expense.date e) <> None) (expenses self)).
Proof.
  unfold get_total_expenses.
  destruct (total_from_cases strptime month (datetime.year now) (expenses self) 0%float)
    as [[HF (result & Hr)]|[HE (text & Ht & Hr)]]; rewrite Hr; split; split.
  - intros (text & _ & [=]).
  - intros HE. destruct (parsed_not_unparsed strptime _ HF HE).
  - intros _. exact HF.
  - intros _. now exists result.
  - intros _. exact HE.
  - intros _. now exists text.
  - intros (total & [=]).
  - intros HF. destruct (parsed_not_unparsed strptime _ HF HE).
Qed.

(** C10: with or without a month, [get_total_expenses] parses the date of
    every record.  It raises the error of [strptime] exactly when some
    record has a date that does not parse, and returns a total exactly when
    every date parses; it returns a total, in particular, when every date
    is a date of the calendar written as DD-MM-YYYY. *)
Theorem get_total_expenses_raises_iff_bad_date
    (strptime : string -> option datetime.t) (now : datetime.t) (month : option Z)
    (self : t) :
  ((exists text, strptime text = None
      /\ get_total_expenses strptime now month self = Raise (StrptimeError text))
   <-> Exists (fun e => strptime (Expense.date e) = None) (expenses self))
  /\ ((exists total, get_total_expenses strptime now month self = Return total)
      <-> Forall (fun e => strptime (Expense.date e) <> None) (expenses self))
  /\ (Forall (fun e => is_dmy (Expense.date e)) (expenses self) ->
      exists total,
        get_total_expenses datetime.strptime now month self = Return total).
Proof.
  destruct (get_total_expenses_cases strptime now month self) as [H1 H2].
  split; [exact H1|]. split; [exact H2|].
  intros H. apply (get_total_expenses_cases datetime.strptime now month self).
  eapply Forall_impl; [|exact H]. intros e. apply is_dmy_parses.
Qed.

Example summary_raises_without_month :
  get_total_expenses datetime.strptime today None with_undated
  = Raise (StrptimeError "yesterday").
Proof. reflexivity. Qed.

(** ** Records read back from storage *)

(** C9, amended: [from_dict] on a mapping that has the five fields keeps
    the stored date verbatim when it is not the empty string, and puts the
    current date in place of an empty one.  The constructor takes the
    current date when no date is passed or the one passed is empty, and the
    date passed otherwise. *)
Theorem from_dict_date (now : datetime.t) (data : value) (i : Z)
    (ti de : string) (a : float) (s : string) :
  Expense.subscript data "id" = Return (VInt i) ->
  Expense.subscript data "title" = Return (VStr ti) ->
  Expense.subscript data "description" = Return (VStr de) ->
  Expense.subscript data "amount" = Return (VFloat a) ->
  Expense.subscript data "date" = Return (VStr s) ->
  (exists e, Expense.from_dict now data = Return e
     /\ (s <> "" -> Expense.date e = s)
     /\ (s = "" -> Expense.date e = datetime.strftime now))
  /\ Expense.date (Expense.init now i ti de a None) = datetime.strftime now
  /\ Expense.date (Expense.init now i ti de a (Some "")) = datetime.strftime now
  /\ (s <> "" -> Expense.date (Expense.init now i ti de a (Some s)) = s).
Proof.
  intros H1 H2 H3 H4 H5. unfold Expense.from_dict.
  rewrite H1, H2, H3, H4, H5. cbn [bind Expense.cls].
  repeat split.
  - eexists. split; [reflexivity|]. split; intros Hs.
    + destruct s; [easy | reflexivity].
    + now subst s.
  - intros Hs. destruct s; [easy | reflexivity].
Qed.

Lemma from_dict_date_witness :
  (exists e, Expense.from_dict today (Expense.to_dict coffee) = Return e
     /\ ("03-11-2026" <> "" -> Expense.date e = "03-11-2026")
     /\ ("03-11-2026" = "" -> Expense.date e = datetime.strftime today))
  /\ Expense.date (Expense.init today 1 "Coffee" "morning" 3.5%float None)
     = datetime.strftime today
  /\ Expense.date (Expense.init today 1 "Coffee" "morning" 3.5%float (Some ""))
     = datetime.strftime today
  /\ ("03-11-2026" <> ""
      -> Expense.date (Expense.init today 1 "Coffee" "morning" 3.5%float
                         (Some "03-11-2026")) = "03-11-2026").
Proof.
  apply (from_dict_date today (Expense.to_dict coffee) 1 "Coffee" "morning"
           3.5%float "03-11-2026"); reflexivity.
Defined.

(** C9 as stated fails on a stored date that is the empty string: the
    record read back carries the date of the day. *)
Lemma from_dict_replaces_empty_date :
  Expense.subscript stored_without_date "date" = Return (VStr "")
  /\ exists e, Expense.from_dict today stored_without_date = Return e
       /\ Expense.date e = "05-11-2026"
       /\ Expense.date e <> "".
Proof.
  split; [reflexivity|]. eexists. split; [reflexivity|]. split; [reflexivity|discriminate].
Qed.

(** ** Saving and loading *)

Lemma from_dict_to_dict (now : datetime.t) (e : Expense.t) :
  Expense.date e <> "" -> Expense.from_dict now (Expense.to_dict e) = Return e.
Proof.
  intros H. destruct e as [i ti de a s]. simpl in H.
  destruct s; [easy | reflexivity].
Qed.

Lemma comprehension_to_dict (now : datetime.t) (l : list Expense.t) :
  Forall (fun e => Expense.date e <> "") l ->
  comprehension now (map Expense.to_dict l) = Return l.
Proof.
  induction 1 as [|e l He _ IH]; [reflexivity|].
  cbn [map comprehension]. now rewrite (from_dict_to_dict now e He), IH.
Qed.

Lemma well_formed_dated (e : Expense.t) : well_formed e -> Expense.date e <> "".
Proof.
  intros (_ & _ & _ & H) E. apply H. now rewrite E.
Qed.

(** C5: a collection of well-formed records that is saved and loaded again
    comes back as the same sequence of records, each with its id, title,
    description, amount and date; a tracker built on the file written holds
    that collection. *)
Theorem save_then_load (now : datetime.t) (self : t) :
  Forall well_formed (expenses self) ->
  load_expenses now (data_file (save_expenses self)) = Return (expenses self)
  /\ init now (data_file (save_expenses self)) = Return (save_expenses self).
Proof.
  intros H.
  assert (E : load_expenses now (data_file (save_expenses self))
              = Return (expenses self)).
  { cbn [save_expenses data_file load_expenses json_load bind iter].
    rewrite comprehension_to_dict; [reflexivity|].
    eapply Forall_impl; [|exact H]. exact well_formed_dated. }
  split; [exact E|]. unfold init. now rewrite E.
Qed.

Lemma save_then_load_witness :
  load_expenses today (data_file (save_expenses two_records))
  = Return (expenses two_records)
  /\ init today (data_file (save_expenses two_records))
     = Return (save_expenses two_records).
Proof.
  apply (save_then_load today two_records).
  repeat constructor; try discriminate; reflexivity.
Defined.

(** ** Loading a file that is missing or broken *)

(** A lookup in a dict returns the value or raises [KeyError] for the key. *)
Lemma getitem_cases (key : string) (entries : list (string * value)) :
  (exists v, Expense.getitem key entries = Return v)
  \/ Expense.getitem key entries = Raise (KeyError key).
Proof.
  induction entries as [|[k v] entries IH]; simpl; [now right|].
  destruct (k =? key)%string; [left; now exists v | exact IH].
Qed.

(** On a dict, [from_dict] raises nothing when the five fields are there,
    and [KeyError] when one is missing. *)
Lemma from_dict_record (now : datetime.t) (entries : list (string * value)) :
  (complete (VDict entries) = true
   /\ forall e, Expense.from_dict now (VDict entries) <> Raise e)
  \/ (complete (VDict entries) = false
      /\ exists key, Expense.from_dict now (VDict entries) = Raise (KeyError key)).
Proof.
  unfold complete, has_field, Expense.from_dict, required_fields.
  cbn [forallb Expense.subscript].
  destruct (getitem_cases "id" entries) as [[v1 ->]| ->]; cbn [bind andb];
    [|right; split; [reflexivity | now exists "id"]].
  destruct (getitem_cases "title" entries) as [[v2 ->]| ->]; cbn [bind andb];
    [|right; split; [reflexivity | now exists "title"]].
  destruct (getitem_cases "description" entries) as [[v3 ->]| ->]; cbn [bind andb];
    [|right; split; [reflexivity | now exists "description"]].
  destruct (getitem_cases "amount" entries) as [[v4 ->]| ->]; cbn [bind andb];
    [|right; split; [reflexivity | now exists "amount"]].
  destruct (getitem_cases "date" entries) as [[v5 ->]| ->]; cbn [bind andb];
    [|right; split; [reflexivity | now exists "date"]].
  left. split; [reflexivity|]. intros e.
  unfold Expense.cls.
  destruct v1; try discriminate; destruct v2; try discriminate;
    destruct v3; try discriminate; destruct v4; try discriminate;
    destruct v5; discriminate.
Qed.

(** A list of dicts of which one lacks a field makes the comprehension
    raise [KeyError], whatever the other dicts hold. *)
Lemma comprehension_incomplete (now : datetime.t) (items : list value) :
  forallb is_record items = true ->
  existsb (fun item => negb (complete item)) items = true ->
  exists key, comprehension now items = Raise (KeyError key).
Proof.
  induction items as [|item items IH]; cbn [forallb existsb comprehension];
    [discriminate|].
  intros Hrec Hex. apply andb_prop in Hrec. destruct Hrec as [Hitem Hrec].
  destruct item as [| | | | | |entries]; try discriminate.
  destruct (from_dict_record now entries) as [[Hc Hok]|[Hc (key & Hk)]].
  - rewrite Hc in Hex. cbn [negb orb] in Hex.
    destruct (IH Hrec Hex) as (key & Hk). exists key.
    destruct (Expense.from_dict now (VDict entries)) as [e|e|];
      [now rewrite Hk | destruct (Hok e eq_refl) | now rewrite Hk].
  - exists key. now rewrite Hk.
Qed.

(** C6, amended: [load_expenses] returns an empty collection, and raises
    nothing, when the file does not exist, when the file is a text that
    [json.load] rejects as no JSON, raising [JSONDecodeError], and when its
    content is a list of objects of which at least one lacks a required
    field; the records that are complete are not kept.  (A file on which
    [open] or [json.load] raises another exception is not among these.) *)
Theorem load_expenses_fail_open (now : datetime.t) (items : list value) :
  forallb is_record items = true ->
  existsb (fun item => negb (complete item)) items = true ->
  load_expenses now None = Return []
  /\ load_expenses now (Some (Failing JSONDecodeError)) = Return []
  /\ load_expenses now (Some (Document (VList items))) = Return [].
Proof.
  intros Hrec Hex. split; [reflexivity|]. split; [reflexivity|].
  cbn [load_expenses json_load bind iter].
  destruct (comprehension_incomplete now items Hrec Hex) as (key & ->).
  reflexivity.
Qed.

Lemma load_expenses_fail_open_witness :
  load_expenses today None = Return []
  /\ load_expenses today (Some (Failing JSONDecodeError)) = Return []
  /\ load_expenses today
       (Some (Document (VList [Expense.to_dict coffee; VDict [("id", VInt 2)]])))
     = Return [].
Proof.
  apply (load_expenses_fail_open today [Expense.to_dict coffee; VDict [("id", VInt 2)]]);
    reflexivity.
Defined.

(** C6 as stated fails on a file that holds valid JSON of another shape: a
    list with a number in it, or a number alone, makes [load_expenses] raise
    [TypeError], which its [except] clause does not catch.  So does a list
    whose first item is not an object, even if a later one lacks a field. *)
Lemma load_expenses_raises_TypeError :
  load_expenses today (Some (Document (VList [VInt 1]))) = Raise TypeError
  /\ load_expenses today (Some (Document (VInt 5))) = Raise TypeError
  /\ load_expenses today (Some (Document (VList [VInt 1; VDict []]))) = Raise TypeError.
Proof. repeat split. Qed.

(** ** Identifiers *)

Lemma max_id_bounds (first : Expense.t) (rest : list Expense.t) :
  Expense.id first <= max_id first rest
  /\ (forall e, In e rest -> Expense.id e <= max_id first rest)
  /\ In (max_id first rest) (map Expense.id (first :: rest)).
Proof.
  unfold max_id.
  assert (G : forall (l : list Expense.t) (m : Z),
    m <= fold_left (fun m e => Z.max m (Expense.id e)) l m
    /\ (forall e, In e l ->
          Expense.id e <= fold_left (fun m e => Z.max m (Expense.id e)) l m)
    /\ (fold_left (fun m e => Z.max m (Expense.id e)) l m = m
        \/ In (fold_left (fun m e => Z.max m (Expense.id e)) l m) (map Expense.id l))).
  { induction l as [|x l IH]; intros m; simpl.
    - split; [lia|]. split; [intros e []|now left].
    - destruct (IH (Z.max m (Expense.id x))) as (H1 & H2 & H3).
      split; [lia|]. split.
      + intros e [<-|Hin]; [lia | now apply H2].
      + destruct H3 as [H3|H3]; [|now right; right].
        rewrite H3. destruct (Z.max_spec m (Expense.id x)) as [[_ ->]|[_ ->]];
          [right; now left | now left]. }
  destruct (G rest (Expense.id first)) as (H1 & H2 & H3).
  split; [exact H1|]. split; [exact H2|].
  simpl. destruct H3 as [->|H3]; [now left | now right].
Qed.

(** The next id is [1] on an empty collection and one more than the largest
    id otherwise; it is larger than every id in use. *)
Lemma get_next_id_spec (self : t) :
  (expenses self = [] -> get_next_id self = 1)
  /\ (expenses self <> [] ->
      In (get_next_id self - 1) (ids self)
      /\ forall x, In x (ids self) -> x <= get_next_id self - 1)
  /\ (forall x, In x (ids self) -> x < get_next_id self).
Proof.
  unfold get_next_id, ids. destruct (expenses self) as [|first rest].
  - split; [reflexivity|]. split; [easy | intros x []].
  - destruct (max_id_bounds first rest) as (H1 & H2 & H3).
    assert (Hle : forall x, In x (map Expense.id (first :: rest)) ->
                            x <= max_id first rest).
    { intros x [<-|Hin]; [exact H1|].
      apply in_map_iff in Hin. destruct Hin as (e & <- & Hin). now apply H2. }
    split; [discriminate|]. split.
    + intros _. replace (max_id first rest + 1 - 1) with (max_id first rest) by lia.
      split; [exact H3 | exact Hle].
    + intros x Hin. specialize (Hle x Hin). lia.
Qed.

(** A successful [add_expense] returns a record with the next id and puts
    it at the end of the collection. *)
Lemma add_expense_Return (now : datetime.t) (title description : string)
    (amount : float) (self self' : t) (expense : Expense.t) :
  add_expense now title description amount self = (Return expense, self') ->
  Expense.id expense = get_next_id self
  /\ expenses self' = (expenses self ++ [expense])%list
  /\ ids self' = (ids self ++ [get_next_id self])%list.
Proof.
  unfold add_expense. destruct (amount <=? 0)%float; [discriminate|].
  intros [= <- <-]. unfold ids. cbn [save_expenses expenses Expense.init Expense.id].
  rewrite map_app. repeat split.
Qed.

(** The ids after an [add_expense], successful or not. *)
Lemma add_expense_ids (now : datetime.t) (title description : string)
    (amount : float) (self : t) :
  ids (snd (add_expense now title description amount self)) = ids self
  \/ ids (snd (add_expense now title description amount self))
     = (ids self ++ [get_next_id self])%list.
Proof.
  destruct (add_expense now title description amount self) as [[e|e|] self'] eqn:E;
    cbn [snd].
  - right. now destruct (add_expense_Return _ _ _ _ _ _ _ E) as (_ & _ & ->).
  - left. unfold add_expense in E. destruct (amount <=? 0)%float; [|discriminate].
    now injection E as _ <-.
  - unfold add_expense in E. destruct (amount <=? 0)%float; discriminate.
Qed.

(** [delete_expense] takes one id out of the list of ids, or none. *)
Lemma delete_expense_ids (expense_id : Z) (self : t) :
  ids (snd (delete_expense expense_id self)) = ids self
  \/ exists before after,
       ids self = (before ++ expense_id :: after)%list
       /\ ids (snd (delete_expense expense_id self)) = (before ++ after)%list.
Proof.
  unfold delete_expense.
  destruct (find_id expense_id 0 (expenses self)) as [j|] eqn:E; [|now left].
  destruct (find_id_Some expense_id _ 0 j E) as (before & e & after & Hl & _ & He & ->).
  right. exists (map Expense.id before), (map Expense.id after).
  unfold ids. cbn [snd save_expenses expenses Nat.add].
  rewrite Hl, del_middle, !map_app.
  cbn [map]. now rewrite He.
Qed.

Lemma NoDup_snoc_fresh (l : list Z) (x : Z) :
  NoDup l -> (forall y, In y l -> y < x) -> NoDup (l ++ [x]).
Proof.
  induction l as [|a l IH]; intros Hl Hx; simpl.
  - constructor; [intros []|constructor].
  - inversion_clear Hl as [|? ? Ha Hl']. constructor.
    + rewrite in_app_iff. intros [Hin|[E|[]]]; [easy|].
      specialize (Hx a (or_introl eq_refl)). lia.
    + apply IH; [exact Hl'|]. intros y Hy. apply Hx. now right.
Qed.

Lemma step_unique (o : op) (self : t) : NoDup (ids self) -> NoDup (ids (step self o)).
Proof.
  intros H. destruct o as [now title description amount|expense_id]; cbn [step].
  - destruct (add_expense_ids now title description amount self) as [->| ->];
      [exact H|].
    apply NoDup_snoc_fresh; [exact H | apply get_next_id_spec].
  - destruct (delete_expense_ids expense_id self) as [->|(before & after & E & ->)];
      [exact H|].
    rewrite E in H. now apply NoDup_remove_1 in H.
Qed.

Lemma run_unique (ops : list op) (self : t) :
  NoDup (ids self) -> NoDup (ids (run ops self)).
Proof.
  unfold run. revert self. induction ops as [|o ops IH]; intros self H; simpl;
    [exact H|].
  apply IH. now apply step_unique.
Qed.

(** [add_expense] raises and changes nothing, or returns a record with the
    next id and puts it behind the others. *)
Lemma add_expense_cases (now : datetime.t) (title description : string)
    (amount : float) (self : t) :
  ((amount <=? 0)%float = true
   /\ add_expense now title description amount self = (Raise InvalidAmount, self))
  \/ ((amount <=? 0)%float = false
      /\ exists expense self',
           add_expense now title description amount self = (Return expense, self')
           /\ Expense.id expense = get_next_id self
           /\ ids self' = (ids self ++ [get_next_id self])%list).
Proof.
  destruct (amount <=? 0)%float eqn:Ea.
  - left. split; [reflexivity|]. unfold add_expense. now rewrite Ea.
  - right. split; [reflexivity|].
    destruct (add_expense now title description amount self) as [[e|e|] self'] eqn:E;
      try (unfold add_expense in E; rewrite Ea in E; discriminate).
    exists e, self'. split; [reflexivity|].
    destruct (add_expense_Return _ _ _ _ _ _ _ E) as (H1 & _ & H3). now split.
Qed.

(** Calls of [add_expense] alone put the ids they return behind the old
    ones, one for each call that passes the test on the amount, each larger
    than all before it. *)
Lemma run_adds (ops : list op) (self : t) :
  forallb is_add ops = true ->
  ids (run ops self) = (ids self ++ assigned ops self)%list
  /\ StronglySorted Z.lt (assigned ops self)
  /\ (forall x y, In x (ids self) -> In y (assigned ops self) -> x < y)
  /\ List.length (assigned ops self) = List.length (filter accepted ops).
Proof.
  unfold run. revert self. induction ops as [|o ops IH]; intros self Hadd.
  - cbn [fold_left assigned filter]. rewrite app_nil_r.
    repeat split; [constructor | intros ? ? _ []].
  - cbn [forallb] in Hadd. apply andb_prop in Hadd. destruct Hadd as [Ho Hadd].
    destruct o as [now title description amount|]; [|discriminate].
    cbn [fold_left assigned filter accepted step].
    destruct (IH (snd (add_expense now title description amount self)) Hadd)
      as (E & Hs & Hlt & Hn).
    rewrite E.
    destruct (add_expense_cases now title description amount self)
      as [[Ea Er]|[Ea (e & self' & Er & Hid & Hids)]];
      rewrite Er in *; rewrite Ea; cbn [fst snd negb app] in *.
    + now repeat split.
    + rewrite Hids in *. rewrite Hid, <- app_assoc. cbn [app List.length].
      repeat split.
      * constructor; [exact Hs|]. apply Forall_forall. intros y Hy.
        apply Hlt; [|exact Hy]. apply in_app_iff. right. now left.
      * intros x y Hx [<-|Hy]; [now apply get_next_id_spec|].
        apply Hlt; [|exact Hy]. apply in_app_iff. now left.
      * now rewrite Hn.
Qed.

(** C4, amended: from a collection with unique ids, after every sequence
    of [add_expense] and [delete_expense] the ids of the records are
    unique.  The record a successful [add_expense] returns is put at the
    end of the collection, and its id is the next id, which is [1] on an
    empty collection and one more than the largest id otherwise, so it is
    larger than every id in use.  After any such sequence, calls of
    [add_expense] with no deletion among them put the ids they return, one
    for each call whose amount passes the test, behind the ids that were
    there, and these ids are strictly increasing and larger than the ids
    that were there. *)
Theorem ids_unique_and_fresh (self : t) :
  NoDup (ids self) ->
  (forall ops, NoDup (ids (run ops self)))
  /\ (forall ops now title description amount expense self',
        add_expense now title description amount (run ops self)
        = (Return expense, self') ->
        Expense.id expense = get_next_id (run ops self)
        /\ (expenses (run ops self) = [] -> Expense.id expense = 1)
        /\ (expenses (run ops self) <> [] ->
            In (Expense.id expense - 1) (ids (run ops self))
            /\ forall x, In x (ids (run ops self)) -> x <= Expense.id expense - 1)
        /\ (forall x, In x (ids (run ops self)) -> x < Expense.id expense)
        /\ expenses self' = (expenses (run ops self) ++ [expense])%list
        /\ ids self' = (ids (run ops self) ++ [Expense.id expense])%list)
  /\ (forall before adds, forallb is_add adds = true ->
        ids (run adds (run before self))
        = (ids (run before self) ++ assigned adds (run before self))%list
        /\ StronglySorted Z.lt (assigned adds (run before self))
        /\ (forall x y, In x (ids (run before self)) ->
                        In y (assigned adds (run before self)) -> x < y)
        /\ List.length (assigned adds (run before self))
           = List.length (filter accepted adds)).
Proof.
  intros H. split; [|split].
  - intros ops. now apply run_unique.
  - intros ops now title description amount expense self' E.
    destruct (add_expense_Return _ _ _ _ _ _ _ E) as (Hid & Hl & Hids).
    rewrite Hid. split; [reflexivity|].
    destruct (get_next_id_spec (run ops self)) as (H1 & H2 & H3).
    split; [exact H1|]. split; [exact H2|]. split; [exact H3|].
    split; [exact Hl | exact Hids].
  - intros before adds. apply run_adds.
Qed.

Lemma ids_unique_and_fresh_witness :
  (forall ops, NoDup (ids (run ops two_records)))
  /\ (forall ops now title description amount expense self',
        add_expense now title description amount (run ops two_records)
        = (Return expense, self') ->
        Expense.id expense = get_next_id (run ops two_records)
        /\ (expenses (run ops two_records) = [] -> Expense.id expense = 1)
        /\ (expenses (run ops two_records) <> [] ->
            In (Expense.id expense - 1) (ids (run ops two_records))
            /\ forall x, In x (ids (run ops two_records)) -> x <= Expense.id expense - 1)
        /\ (forall x, In x (ids (run ops two_records)) -> x < Expense.id expense)
        /\ expenses self' = (expenses (run ops two_records) ++ [expense])%list
        /\ ids self' = (ids (run ops two_records) ++ [Expense.id expense])%list)
  /\ (forall before adds, forallb is_add adds = true ->
        ids (run adds (run before two_records))
        = (ids (run before two_records) ++ assigned adds (run before two_records))%list
        /\ StronglySorted Z.lt (assigned adds (run before two_records))
        /\ (forall x y, In x (ids (run before two_records)) ->
                        In y (assigned adds (run before two_records)) -> x < y)
        /\ List.length (assigned adds (run before two_records))
           = List.length (filter accepted adds)).
Proof.
  apply (ids_unique_and_fresh two_records).
  repeat constructor; simpl; intuition discriminate.
Defined.

(** Three calls of [add_expense] in a row, the second with an amount that
    does not pass: the ids returned are 3 and 4, behind 1 and 2. *)
Example successive_adds :
  assigned [ Add today "Pen" "office" 1.5%float;
             Add today "Ink" "office" 0%float;
             Add today "Tea" "green" 2%float ] two_records = [3; 4]
  /\ ids (run [ Add today "Pen" "office" 1.5%float;
                Add today "Ink" "office" 0%float;
                Add today "Tea" "green" 2%float ] two_records) = [1; 2; 3; 4].
Proof. split; reflexivity. Qed.

(** C4 as stated fails when the record deleted is the one with the largest
    id: the next [add_expense] assigns that id again, so the ids assigned by
    two calls with that deletion between them are equal. *)
Lemma deleted_id_is_assigned_again :
  ids two_records = [1; 2]
  /\ ids (run [Delete 2] two_records) = [1]
  /\ (exists expense self',
        add_expense today "Pen" "office" 1.5%float (run [Delete 2] two_records)
        = (Return expense, self')
        /\ Expense.id expense = 2)
  /\ (exists first second self1 self2,
        add_expense today "Pen" "office" 1.5%float two_records = (Return first, self1)
        /\ add_expense today "Ink" "office" 2%float (snd (delete_expense 3 self1))
           = (Return second, self2)
        /\ Expense.id first = 3
        /\ Expense.id second = 3).
Proof.
  split; [reflexivity|]. split; [reflexivity|]. split.
  - do 2 eexists. split; reflexivity.
  - do 4 eexists. repeat split.
Qed.

(** The scenario of the specification: ids 1 and 2, the first record
    deleted, then id 3; the list holds 2 and 3 and the total is 13.5. *)
Example scenario :
  let self := run [ Add today "Coffee" "morning" 3.5%float;
                    Add today "Book" "novel" 12%float;
                    Delete 1;
                    Add today "Pen" "office" 1.5%float ]
                  {| data_file := None; expenses := [] |} in
  ids self = [2; 3]
  /\ get_total_expenses datetime.strptime today None self = Return 13.5%float
  /\ load_expenses today (data_file self) = Return (list_expenses self).
Proof. repeat split. Qed.

(** ** Dates the tracker writes *)

Lemma step_dates_parse (o : op) (self : t) :
  valid_clock o = true ->
  Forall (fun e => datetime.strptime (Expense.date e) <> None) (expenses self) ->
  Forall (fun e => datetime.strptime (Expense.date e) <> None) (expenses (step self o)).
Proof.
  intros Hc H. destruct o as [now title description amount|expense_id]; cbn [step].
  - unfold add_expense. destruct (amount <=? 0)%float; [exact H|].
    cbn [snd save_expenses expenses]. apply Forall_app. split; [exact H|].
    constructor; [|constructor]. cbn [Expense.init Expense.date].
    cbn [valid_clock] in Hc. apply andb_prop in Hc. destruct Hc as [Hc _].
    now rewrite (strptime_strftime now Hc).
  - unfold delete_expense.
    destruct (find_id expense_id 0 (expenses self)) as [j|] eqn:E; [|exact H].
    destruct (find_id_Some expense_id _ 0 j E) as (before & e & after & Hl & _ & _ & ->).
    cbn [snd save_expenses expenses Nat.add]. rewrite Hl in *. rewrite del_middle.
    apply Forall_app in H. destruct H as [Hb Ha].
    apply Forall_app. split; [exact Hb | now inversion Ha].
Qed.

(** The records the tracker itself writes carry dates that parse: from a
    collection of such records, no sequence of calls leads to a collection
    on which the summary raises. *)
Lemma run_dates_parse (ops : list op) (self : t) (now : datetime.t)
    (month : option Z) :
  forallb valid_clock ops = true ->
  Forall (fun e => datetime.strptime (Expense.date e) <> None) (expenses self) ->
  Forall (fun e => datetime.strptime (Expense.date e) <> None)
         (expenses (run ops self))
  /\ exists total,
       get_total_expenses datetime.strptime now month (run ops self) = Return total.
Proof.
  intros Hc H.
  assert (G : Forall (fun e => datetime.strptime (Expense.date e) <> None)
                     (expenses (run ops self))).
  { unfold run. revert self H.
    induction ops as [|o ops IH]; intros self H; simpl; [exact H|].
    cbn [forallb] in Hc. apply andb_prop in Hc. destruct Hc as [Ho Hc].
    apply (IH Hc). now apply step_dates_parse. }
  split; [exact G|].
  unfold get_total_expenses.
  destruct (total_from_cases datetime.strptime month (datetime.year now)
              (expenses (run ops self)) 0%float) as [[_ Hr]|[HE _]]; [exact Hr|].
  destruct (parsed_not_unparsed datetime.strptime _ G HE).
Qed.

(** * Further properties of the tracker *)

(** ** Deleting and updating a record that is there *)

(** X1: when a record has the id, [delete_expense] returns [True], takes
    out the first record with the id and no other, keeps the order of the
    rest, and writes the rest to the file; when the ids are unique the id
    is in use no more. *)
Theorem delete_expense_present (expense_id : Z) (self : t) :
  (exists e, In e (expenses self) /\ Expense.id e = expense_id) ->
  exists before e after,
    expenses self = (before ++ e :: after)%list
    /\ (forall x, In x before -> Expense.id x <> expense_id)
    /\ Expense.id e = expense_id
    /\ delete_expense expense_id self
       = (Return true,
          {| data_file := dump (before ++ after);
             expenses := (before ++ after)%list |})
    /\ (NoDup (ids self) ->
        ~ In expense_id (ids (snd (delete_expense expense_id self)))).
Proof.
  intros (e0 & Hin & Hid).
  destruct (find_id_In expense_id (expenses self) e0 Hin Hid) as (j & Hj).
  destruct (find_id_Some expense_id _ 0 j Hj)
    as (before & e & after & Hl & Hb & He & ->).
  assert (E : delete_expense expense_id self
              = (Return true,
                 {| data_file := dump (before ++ after);
                    expenses := (before ++ after)%list |})).
  { unfold delete_expense. rewrite Hj. cbn [Nat.add].
    unfold save_expenses, dump. cbn [expenses]. now rewrite Hl, del_middle. }
  exists before, e, after. repeat split; auto.
  rewrite E. unfold ids at 2. cbn [snd expenses]. intros Hnd Hin'.
  unfold ids in Hnd. rewrite Hl, map_app in Hnd. cbn [map] in Hnd.
  apply NoDup_remove_2 in Hnd. apply Hnd. rewrite <- map_app, He. exact Hin'.
Qed.

Lemma delete_expense_present_witness :
  exists before e after,
    expenses two_records = (before ++ e :: after)%list
    /\ (forall x, In x before -> Expense.id x <> 1)
    /\ Expense.id e = 1
    /\ delete_expense 1 two_records
       = (Return true,
          {| data_file := dump (before ++ after);
             expenses := (before ++ after)%list |})
    /\ (NoDup (ids two_records) ->
        ~ In 1 (ids (snd (delete_expense 1 two_records)))).
Proof.
  apply (delete_expense_present 1 two_records).
  exists coffee. split; [simpl; auto | reflexivity].
Defined.

(** X2: when a record has the id and the amount is left out or is not
    [<= 0], [update_expense] returns [True]; the first record with the id
    carries what was supplied and keeps its other fields, the other records
    are untouched, and the file holds the new collection. *)
Theorem update_expense_present (expense_id : Z)
    (title description : option string) (amount : option float) (self : t) :
  (exists e, In e (expenses self) /\ Expense.id e = expense_id) ->
  (forall v, amount = Some v -> (v <=? 0)%float = false) ->
  exists before e after,
    expenses self = (before ++ e :: after)%list
    /\ (forall x, In x before -> Expense.id x <> expense_id)
    /\ Expense.id e = expense_id
    /\ update_expense expense_id title description amount self
       = (Return true,
          {| data_file :=
               dump (before ++ revised title description amount e :: after);
             expenses :=
               (before ++ revised title description amount e :: after)%list |}).
Proof.
  intros (e0 & Hin & Hid) Hv.
  destruct (find_id_In expense_id (expenses self) e0 Hin Hid) as (j & Hj).
  destruct (find_id_Some expense_id _ 0 j Hj)
    as (before & e & after & Hl & Hb & He & ->).
  exists before, e, after. repeat split; auto.
  unfold update_expense. rewrite Hj. cbn [Nat.add].
  destruct self as [file l]. cbn [expenses] in Hl. subst l.
  destruct amount as [v|]; [rewrite (Hv v eq_refl)|];
    destruct title as [ti|], description as [de|];
    unfold save_expenses, assign_at, dump; cbn [expenses data_file];
    rewrite ?assign_middle; destruct e; reflexivity.
Qed.

Lemma update_expense_present_witness :
  exists before e after,
    expenses two_records = (before ++ e :: after)%list
    /\ (forall x, In x before -> Expense.id x <> 2)
    /\ Expense.id e = 2
    /\ update_expense 2 (Some "Atlas") None (Some 14.5%float) two_records
       = (Return true,
          {| data_file :=
               dump (before ++ revised (Some "Atlas") None (Some 14.5%float) e
                               :: after);
             expenses :=
               (before ++ revised (Some "Atlas") None (Some 14.5%float) e
                       :: after)%list |}).
Proof.
  apply (update_expense_present 2 (Some "Atlas") None (Some 14.5%float) two_records).
  - exists book. split; [simpl; auto | reflexivity].
  - intros v [= <-]. reflexivity.
Defined.

(** X3: when no record has the id, [update_expense] returns [False] and
    the tracker is the one before the call, whatever else is supplied, an
    amount [<= 0] included: nothing is assigned, nothing is raised and
    nothing is saved. *)
Theorem update_expense_absent (expense_id : Z)
    (title description : option string) (amount : option float) (self : t) :
  (forall e, In e (expenses self) -> Expense.id e <> expense_id) ->
  update_expense expense_id title description amount self = (Return false, self).
Proof.
  intros H. unfold update_expense.
  now rewrite (proj2 (find_id_None expense_id (expenses self) 0) H).
Qed.

Lemma update_expense_absent_witness :
  update_expense 7 (Some "Atlas") None (Some (-5)%float) two_records
  = (Return false, two_records).
Proof.
  apply (update_expense_absent 7 (Some "Atlas") None (Some (-5)%float) two_records).
  intros e [<-|[<-|[]]]; discriminate.
Defined.

Lemma assign_map {A : Type} (g : Expense.t -> A) (f : Expense.t -> Expense.t)
    (i : nat) (l : list Expense.t) :
  (forall e, g (f e) = g e) -> map g (assign f i l) = map g l.
Proof.
  intros H. revert i. induction l as [|x l IH]; intros [|i]; simpl;
    rewrite ?H, ?IH; reflexivity.
Qed.

Lemma update_expense_maps {A : Type} (g : Expense.t -> A) (expense_id : Z)
    (title description : option string) (amount : option float) (self : t) :
  (forall v e, g (Expense.set_title v e) = g e) ->
  (forall v e, g (Expense.set_description v e) = g e) ->
  (forall v e, g (Expense.set_amount v e) = g e) ->
  map g (expenses (snd (update_expense expense_id title description amount self)))
  = map g (expenses self).
Proof.
  intros Ht Hd Ha. unfold update_expense.
  destruct (find_id expense_id 0 (expenses self)) as [j|]; [|reflexivity].
  destruct title as [ti|], description as [de|], amount as [v|];
    try destruct (v <=? 0)%float;
    cbn [snd save_expenses assign_at expenses];
    rewrite ?assign_map by auto; reflexivity.
Qed.

(** X4: whatever it is given and however it ends, [update_expense] leaves
    the ids and the dates of the records in memory as they were, record by
    record. *)
Theorem update_expense_keeps_ids_and_dates (expense_id : Z)
    (title description : option string) (amount : option float) (self : t) :
  map Expense.id
      (expenses (snd (update_expense expense_id title description amount self)))
  = map Expense.id (expenses self)
  /\ map Expense.date
         (expenses (snd (update_expense expense_id title description amount self)))
     = map Expense.date (expenses self).
Proof.
  split; apply update_expense_maps; reflexivity.
Qed.

(** ** What every sequence of calls keeps *)

Lemma assign_Forall (P : Expense.t -> Prop) (f : Expense.t -> Expense.t)
    (i : nat) (l : list Expense.t) :
  (forall e, P e -> P (f e)) -> Forall P l -> Forall P (assign f i l).
Proof.
  intros Hf H. revert i. induction H as [|x l Hx Hl IH]; intros [|i]; simpl;
    constructor; auto.
Qed.

Lemma del_Forall (P : Expense.t -> Prop) (expense_id : Z) (j : nat)
    (l : list Expense.t) :
  find_id expense_id 0 l = Some j -> Forall P l -> Forall P (del j l).
Proof.
  intros Hj H.
  destruct (find_id_Some expense_id _ 0 j Hj) as (before & e & after & -> & _ & _ & ->).
  cbn [Nat.add]. rewrite del_middle. apply Forall_app in H. destruct H as [Hb Ha].
  apply Forall_app. split; [exact Hb | now inversion Ha].
Qed.

Section Kept.

(** A property of records that the record of [add_expense] has, when the
    clock is right, and that the three assignments of [update_expense]
    keep. *)
Variable P : Expense.t -> Prop.
Variable clock : datetime.t -> Prop.

Hypothesis P_new : forall now i title description amount,
  (amount <=? 0)%float = false -> clock now ->
  P (Expense.init now i title description amount None).
Hypothesis P_title : forall v e, P e -> P (Expense.set_title v e).
Hypothesis P_description : forall v e, P e -> P (Expense.set_description v e).
Hypothesis P_amount : forall v e,
  (v <=? 0)%float = false -> P e -> P (Expense.set_amount v e).

Lemma perform_kept (c : call) (self : t) :
  clocked clock c -> Forall P (expenses self) ->
  Forall P (expenses (perform self c)).
Proof.
  intros Hc H. destruct c as [now ti de a|i|i ti de a]; cbn [perform].
  - unfold add_expense. destruct (a <=? 0)%float eqn:Ea; [exact H|].
    cbn [snd save_expenses expenses]. apply Forall_app. split; [exact H|].
    constructor; [|constructor]. now apply P_new.
  - unfold delete_expense.
    destruct (find_id i 0 (expenses self)) as [j|] eqn:Ej; [|exact H].
    cbn [snd save_expenses expenses]. now apply (del_Forall P i).
  - unfold update_expense.
    destruct (find_id i 0 (expenses self)) as [j|]; [|exact H].
    destruct ti as [vt|], de as [vd|], a as [v|];
      try destruct (v <=? 0)%float eqn:Ev;
      cbn [snd save_expenses assign_at expenses];
      repeat (apply assign_Forall; [auto|]); exact H.
Qed.

Lemma perform_all_kept (calls : list call) (self : t) :
  Forall (clocked clock) calls -> Forall P (expenses self) ->
  Forall P (expenses (perform_all calls self)).
Proof.
  unfold perform_all. intros Hc. revert self.
  induction Hc as [|c calls Hc _ IH]; intros self H; simpl; [exact H|].
  apply IH. now apply perform_kept.
Qed.

End Kept.

Lemma always_clocked (calls : list call) : Forall (clocked (fun _ => True)) calls.
Proof.
  induction calls as [|[] calls IH]; constructor; simpl; auto.
Qed.

(** X5: no sequence of calls of [add_expense], [delete_expense] and
    [update_expense] puts an amount that is [<= 0] into the collection,
    whether the calls return or raise. *)
Theorem calls_keep_amounts_guarded (calls : list call) (self : t) :
  Forall guarded (expenses self) ->
  Forall guarded (expenses (perform_all calls self)).
Proof.
  apply (perform_all_kept guarded (fun _ => True)).
  - intros now i ti de a Ha _. exact Ha.
  - intros v e H. exact H.
  - intros v e H. exact H.
  - intros v e Hv _. exact Hv.
  - apply always_clocked.
Qed.

Lemma calls_keep_amounts_guarded_witness :
  Forall guarded
    (expenses (perform_all [ CallUpdate 1 None None (Some 0%float);
                             CallAdd today "Pen" "office" (-1)%float;
                             CallUpdate 2 None None (Some 14.5%float) ]
                           two_records)).
Proof.
  apply (calls_keep_amounts_guarded _ two_records).
  repeat constructor.
Defined.

(** The test lets through an amount that is not a number, which is not
    positive either. *)
Example nan_is_guarded :
  (nan <=? 0)%float = false /\ (0 <? nan)%float = false
  /\ exists expense self',
       add_expense today "Pen" "office" nan two_records = (Return expense, self').
Proof. split; [reflexivity|]. split; [reflexivity|]. now do 2 eexists. Qed.

Lemma perform_ids_unique (c : call) (self : t) :
  NoDup (ids self) -> NoDup (ids (perform self c)).
Proof.
  intros H. destruct c as [now ti de a|i|i ti de a]; cbn [perform].
  - exact (step_unique (Add now ti de a) self H).
  - exact (step_unique (Delete i) self H).
  - unfold ids. now rewrite update_expense_maps by reflexivity.
Qed.

(** X6: from a collection with unique ids, every sequence of calls
    of [add_expense], [delete_expense] and [update_expense], returning or
    raising, leaves a collection with unique ids. *)
Theorem calls_keep_ids_unique (calls : list call) (self : t) :
  NoDup (ids self) -> NoDup (ids (perform_all calls self)).
Proof.
  unfold perform_all. revert self.
  induction calls as [|c calls IH]; intros self H; simpl; [exact H|].
  apply IH. now apply perform_ids_unique.
Qed.

Lemma calls_keep_ids_unique_witness :
  NoDup (ids (perform_all [ CallDelete 2;
                            CallAdd today "Pen" "office" 1.5%float;
                            CallUpdate 2 (Some "Ink") None None ]
                          two_records)).
Proof.
  apply (calls_keep_ids_unique _ two_records).
  repeat constructor; simpl; intuition discriminate.
Defined.

(** X7: the dates [add_expense] writes are dates [get_total_expenses]
    reads.  From a collection whose dates parse, after every sequence of
    calls made with a clock that shows a date of the calendar, all dates
    parse and the summary returns a total, with or without a month. *)
Theorem calls_keep_summary_total (calls : list call) (self : t)
    (now : datetime.t) (month : option Z) :
  Forall (clocked four_digit_clock) calls ->
  Forall (fun e => datetime.strptime (Expense.date e) <> None) (expenses self) ->
  Forall (fun e => datetime.strptime (Expense.date e) <> None)
         (expenses (perform_all calls self))
  /\ exists total,
       get_total_expenses datetime.strptime now month (perform_all calls self)
       = Return total.
Proof.
  intros Hc H.
  assert (G : Forall (fun e => datetime.strptime (Expense.date e) <> None)
                     (expenses (perform_all calls self))).
  { apply (perform_all_kept
             (fun e => datetime.strptime (Expense.date e) <> None)
             four_digit_clock); auto.
    intros clock i ti de a _ [Hv _]. cbn [Expense.init Expense.date].
    now rewrite (strptime_strftime clock Hv). }
  split; [exact G|]. now apply get_total_expenses_cases.
Qed.

Lemma calls_keep_summary_total_witness :
  Forall (fun e => datetime.strptime (Expense.date e) <> None)
         (expenses (perform_all [ CallAdd today "Pen" "office" 1.5%float;
                                  CallDelete 1 ] two_records))
  /\ exists total,
       get_total_expenses datetime.strptime today (Some 11)
         (perform_all [ CallAdd today "Pen" "office" 1.5%float; CallDelete 1 ]
                      two_records)
       = Return total.
Proof.
  apply (calls_keep_summary_total
           [ CallAdd today "Pen" "office" 1.5%float; CallDelete 1 ]
           two_records today (Some 11)).
  - repeat constructor. simpl. lia.
  - repeat constructor; discriminate.
Defined.

(** ** The file after a call *)

Lemma init_date_not_empty (now : datetime.t) (i : Z) (ti de : string) (a : float)
    (d : option string) :
  Expense.date (Expense.init now i ti de a d) <> "".
Proof.
  destruct d as [[|c s]|]; cbn; discriminate.
Qed.

Lemma from_dict_dated (now : datetime.t) (data : value) (e : Expense.t) :
  Expense.from_dict now data = Return e -> Expense.date e <> "".
Proof.
  unfold Expense.from_dict. destruct data as [| | | | | |entries];
    try discriminate. cbn [Expense.subscript].
  destruct (Expense.getitem "id" entries) as [v1| |]; try discriminate.
  destruct (Expense.getitem "title" entries) as [v2| |]; try discriminate.
  destruct (Expense.getitem "description" entries) as [v3| |]; try discriminate.
  destruct (Expense.getitem "amount" entries) as [v4| |]; try discriminate.
  destruct (Expense.getitem "date" entries) as [v5| |]; try discriminate.
  cbn [bind]. unfold Expense.cls.
  destruct v1; try discriminate; destruct v2; try discriminate;
    destruct v3; try discriminate; destruct v4; try discriminate;
    destruct v5; try discriminate; intros [= <-]; apply init_date_not_empty.
Qed.

Lemma comprehension_dated (now : datetime.t) (items : list value)
    (l : list Expense.t) :
  comprehension now items = Return l ->
  Forall (fun e => Expense.date e <> "") l /\ List.length l = List.length items.
Proof.
  revert l. induction items as [|item items IH]; intros l; cbn [comprehension].
  - intros [= <-]. split; [constructor | reflexivity].
  - destruct (Expense.from_dict now item) as [e| |] eqn:E; try discriminate.
    + destruct (comprehension now items) as [l'| |]; try discriminate.
      intros [= <-]. destruct (IH l' eq_refl) as [H1 H2]. split.
      * constructor; [exact (from_dict_dated now item e E) | exact H1].
      * simpl. now rewrite H2.
    + destruct (comprehension now items); discriminate.
Qed.

(** What the comprehension raises is what [from_dict] raises: [TypeError]
    or [KeyError]. *)
Lemma comprehension_raises (now : datetime.t) (items : list value) (e : exn) :
  comprehension now items = Raise e -> e = TypeError \/ exists key, e = KeyError key.
Proof.
  induction items as [|item items IH]; cbn [comprehension]; [discriminate|].
  assert (F : forall x, Expense.from_dict now item = Raise x ->
                        x = TypeError \/ exists key, x = KeyError key).
  { intros x. destruct item as [| | | | | |entries];
      try (cbn; intros [= <-]; now left).
    destruct (from_dict_record now entries) as [[_ Hok]|[_ (key & Hk)]].
    - intros Hx. destruct (Hok x Hx).
    - rewrite Hk. intros [= <-]. right. now exists key. }
  destruct (Expense.from_dict now item) as [x|x|].
  - destruct (comprehension now items) as [l|y|]; try discriminate.
    intros [= <-]. now apply IH.
  - intros [= <-]. now apply F.
  - destruct (comprehension now items) as [l|y|]; try discriminate.
    intros [= <-]. now apply IH.
Qed.







(** ** The total after an addition *)

(** X9: after [add_expense] has added a record to a collection whose dates
    parse, the total without a month is the total before plus the amount
    added, in floating point. *)
Theorem total_after_add (strptime : string -> option datetime.t)
    (now now' : datetime.t) (title description : string) (amount : float)
    (self : t) :
  (amount <=? 0)%float = false ->
  strptime (datetime.strftime now) <> None ->
  Forall (fun e => strptime (Expense.date e) <> None) (expenses self) ->
  get_total_expenses strptime now' None self = Return (sum_amounts (expenses self))
  /\ get_total_expenses strptime now' None
       (snd (add_expense now title description amount self))
     = Return (sum_amounts (expenses self) + amount)%float.
Proof.
  intros Ha Hn H. split.
  - exact (total_from_all strptime (datetime.year now') (expenses self) 0%float H).
  - unfold add_expense, get_total_expenses. rewrite Ha.
    cbn [snd save_expenses expenses]. rewrite total_from_all.
    + unfold sum_amounts. rewrite map_app, fold_left_app. reflexivity.
    + apply Forall_app. split; [exact H|]. constructor; [exact Hn | constructor].
Qed.

Lemma total_after_add_witness :
  get_total_expenses datetime.strptime today None two_records
  = Return (sum_amounts (expenses two_records))
  /\ get_total_expenses datetime.strptime today None
       (snd (add_expense today "Pen" "office" 1.5%float two_records))
     = Return (sum_amounts (expenses two_records) + 1.5)%float.
Proof.
  apply (total_after_add datetime.strptime today today "Pen" "office" 1.5%float
           two_records).
  - reflexivity.
  - discriminate.
  - repeat constructor; discriminate.
Defined.

(** ** Saving and loading any collection *)

Lemma from_dict_to_dict_redated (now : datetime.t) (e : Expense.t) :
  Expense.from_dict now (Expense.to_dict e) = Return (redated now e).
Proof. reflexivity. Qed.

Lemma comprehension_to_dict_redated (now : datetime.t) (l : list Expense.t) :
  comprehension now (map Expense.to_dict l) = Return (map (redated now) l).
Proof.
  induction l as [|e l IH]; [reflexivity|].
  cbn [map comprehension]. now rewrite from_dict_to_dict_redated, IH.
Qed.

Lemma redated_dated (now : datetime.t) (e : Expense.t) :
  Expense.date e <> "" -> redated now e = e.
Proof.
  intros H. destruct e as [i ti de a s]. cbn in H.
  destruct s; [easy | reflexivity].
Qed.

(** X10: for every collection, saving and loading gives back the records
    in their order, each with its id, title, description and amount; a
    record comes back with its date unless the date is the empty string,
    which comes back as the current date.  What is loaded has no empty date,
    so a second round changes nothing. *)
Theorem save_then_load_any (now : datetime.t) (self : t) :
  load_expenses now (data_file (save_expenses self))
  = Return (map (redated now) (expenses self))
  /\ (forall e, Expense.date e <> "" -> redated now e = e)
  /\ (forall e, Expense.date e = "" ->
        redated now e
        = {| Expense.id := Expense.id e; Expense.title := Expense.title e;
             Expense.description := Expense.description e;
             Expense.amount := Expense.amount e;
             Expense.date := datetime.strftime now |})
  /\ map (redated now) (map (redated now) (expenses self))
     = map (redated now) (expenses self).
Proof.
  split; [|split; [|split]].
  - cbn [save_expenses data_file load_expenses json_load bind iter].
    now rewrite comprehension_to_dict_redated.
  - apply redated_dated.
  - intros [i ti de a s] H. cbn in H. subst s. reflexivity.
  - rewrite map_map. apply map_ext. intros e.
    apply redated_dated. apply init_date_not_empty.
Qed.

(** ** What loading can end in *)

(** What [load_expenses] raises is never one of the two exceptions of its
    [except] clause; it is [TypeError], on a document that was decoded, or
    what [open] and [json.load] raised on the file. *)
Lemma load_expenses_Raise (now : datetime.t) (file : option content) (e : exn) :
  load_expenses now file = Raise e ->
  e <> JSONDecodeError
  /\ (forall key, e <> KeyError key)
  /\ (file = Some (Failing e)
      \/ (e = TypeError /\ exists data, file = Some (Document data))).
Proof.
  unfold load_expenses. destruct file as [[x|data]|];
    cbn [json_load bind]; try discriminate.
  - destruct x; try discriminate; intros [= <-];
      (split; [discriminate|]); (split; [discriminate|]); now left.
  - assert (T : e = TypeError ->
                e <> JSONDecodeError
                /\ (forall key, e <> KeyError key)
                /\ (Some (Document data) = Some (Failing e)
                    \/ (e = TypeError
                        /\ exists data', Some (Document data) = Some (Document data')))).
    { intros ->. split; [discriminate|]. split; [discriminate|].
      right. split; [reflexivity | now exists data]. }
    destruct (iter data) as [items|x|] eqn:Ei; cbn [bind].
    + destruct (comprehension now items) as [l|x|] eqn:E; try discriminate.
      destruct (comprehension_raises now items x E) as [->|(key & ->)];
        [intros [= <-]; now apply T | discriminate].
    + destruct data; try discriminate; injection Ei as <-;
        intros [= <-]; now apply T.
    + discriminate.
Qed.

(** X11: [load_expenses] never lets out [JSONDecodeError] or [KeyError].
    What it raises is [TypeError], on a document that was decoded, or the
    exception that [open] and [json.load] raised on the file, which passes
    through whenever it is none of those two ([UnicodeDecodeError] on a
    file that is no text, for one).  On a document that is a list it
    returns either no record at all or one record for each item of the
    list, in the order of the list. *)
Theorem load_expenses_outcomes (now : datetime.t) (file : option content) :
  (forall e, load_expenses now file = Raise e ->
     e <> JSONDecodeError
     /\ (forall key, e <> KeyError key)
     /\ (file = Some (Failing e)
         \/ (e = TypeError /\ exists data, file = Some (Document data))))
  /\ (forall e, e <> JSONDecodeError -> (forall key, e <> KeyError key) ->
        load_expenses now (Some (Failing e)) = Raise e)
  /\ load_expenses now (Some (Failing UnicodeDecodeError)) = Raise UnicodeDecodeError
  /\ (forall items l,
        file = Some (Document (VList items)) ->
        load_expenses now file = Return l ->
        l = []
        \/ (comprehension now items = Return l
            /\ List.length l = List.length items)).
Proof.
  split; [|split; [|split]].
  - intros e. apply load_expenses_Raise.
  - intros e H1 H2. destruct e; try reflexivity; [now destruct (H2 key) | easy].
  - reflexivity.
  - intros items l -> . cbn [load_expenses json_load bind iter].
    destruct (comprehension now items) as [l'|x|] eqn:E.
    + intros [= <-]. right. split; [reflexivity|].
      now apply (comprehension_dated now items).
    + destruct x; try discriminate; intros [= <-]; now left.
    + discriminate.
Qed.

(** X12: on a document that is not a list, [load_expenses] returns an
    empty collection when the document is an object without keys or an
    empty string, and raises [TypeError] on every other one: a number, a
    boolean, [null], an object with a key, a string with a character. *)
Theorem load_expenses_not_a_list (now : datetime.t) (data : value) :
  is_list data = false ->
  load_expenses now (Some (Document data))
  = if empty_container data then Return [] else Raise TypeError.
Proof.
  intros H. destruct data as [| | | |s|items|entries]; try reflexivity.
  - destruct s; reflexivity.
  - discriminate.
  - destruct entries as [|[k v] entries]; reflexivity.
Qed.

Lemma load_expenses_not_a_list_witness :
  load_expenses today (Some (Document (VDict [("expenses", VList [])])))
  = if empty_container (VDict [("expenses", VList [])])
    then Return [] else Raise TypeError.
Proof.
  apply (load_expenses_not_a_list today (VDict [("expenses", VList [])])).
  reflexivity.
Defined.

(** ** What [from_dict] raises *)

(** X13: [from_dict] raises [TypeError] on a value that is not a dict; on
    a dict it raises [KeyError] for the first of id, title, description,
    amount, date that the dict lacks, and raises nothing when the dict has
    all five. *)
Theorem from_dict_errors (now : datetime.t) :
  (forall data, is_record data = false ->
                Expense.from_dict now data = Raise TypeError)
  /\ (forall entries,
        match missing_fields entries with
        | key :: _ => Expense.from_dict now (VDict entries) = Raise (KeyError key)
        | [] => forall e, Expense.from_dict now (VDict entries) <> Raise e
        end).
Proof.
  split.
  - intros data H. destruct data; try reflexivity. discriminate.
  - intros entries.
    unfold missing_fields, required_fields, has_field, Expense.from_dict.
    cbn [filter Expense.subscript].
    destruct (getitem_cases "id" entries) as [[v1 ->]| ->];
      cbn [bind negb]; [|reflexivity].
    destruct (getitem_cases "title" entries) as [[v2 ->]| ->];
      cbn [bind negb]; [|reflexivity].
    destruct (getitem_cases "description" entries) as [[v3 ->]| ->];
      cbn [bind negb]; [|reflexivity].
    destruct (getitem_cases "amount" entries) as [[v4 ->]| ->];
      cbn [bind negb]; [|reflexivity].
    destruct (getitem_cases "date" entries) as [[v5 ->]| ->];
      cbn [bind negb]; [|reflexivity].
    intros e. unfold Expense.cls.
    destruct v1; try discriminate; destruct v2; try discriminate;
      destruct v3; try discriminate; destruct v4; try discriminate;
      destruct v5; discriminate.
Qed.

(** * Properties of the command line *)

Lemma init_Return (now : datetime.t) (file : option content) (tracker : t) :
  init now file = Return tracker ->
  data_file tracker = file /\ load_expenses now file = Return (expenses tracker).
Proof.
  unfold init. destruct (load_expenses now file) as [l| |]; try discriminate.
  cbn [bind]. intros [= <-]. now split.
Qed.

(** ** An update of the title alone *)

(** X14: [main] refuses an update that brings a title but neither a
    description nor an amount, an empty description and an amount of zero
    counting as none: it prints the request for one of them and leaves the
    file as it was, whether or not a record has the id. *)
Theorem main_refuses_title_only_update (lib : Cli.library) (now : datetime.t)
    (file : option content) (tracker : t) (id : Z)
    (title description : option string) (amount : option float) :
  init now file = Return tracker ->
  Cli.given title = true ->
  Cli.given description = false ->
  Cli.given_amount amount = false ->
  Cli.main lib now file (Cli.UpdateCommand id title description amount)
  = (Return ["Error: Please provide either --description or --amount to update"],
     file).
Proof.
  intros H Ht Hd Ha. destruct (init_Return now file tracker H) as [Hf _].
  unfold Cli.main. rewrite H. cbn [Cli.command]. rewrite Ht, Hd, Ha.
  cbn [andb negb Cli.handled]. now rewrite Hf.
Qed.

Lemma main_refuses_title_only_update_witness :
  Cli.main plain today (data_file two_records)
    (Cli.UpdateCommand 2 (Some "Atlas") (Some "") (Some 0%float))
  = (Return ["Error: Please provide either --description or --amount to update"],
     data_file two_records).
Proof.
  apply (main_refuses_title_only_update plain today (data_file two_records)
           two_records 2 (Some "Atlas") (Some "") (Some 0%float)); reflexivity.
Defined.

(** ** The summary on the command line *)

(** X15: in the summary a month of [0] is taken as no month at all, and
    every other month below 1 or above 12 is refused with a message, the
    total not being computed and the file left as it was. *)
Theorem main_summary_month_edges (lib : Cli.library) (now : datetime.t)
    (file : option content) (tracker : t) :
  init now file = Return tracker ->
  Cli.main lib now file (Cli.SummaryCommand (Some 0))
  = Cli.main lib now file (Cli.SummaryCommand None)
  /\ (forall m, m <> 0 -> m < 1 \/ 12 < m ->
        Cli.main lib now file (Cli.SummaryCommand (Some m))
        = (Return ["Error: Month must be between 1 and 12"], file)).
Proof.
  intros H. destruct (init_Return now file tracker H) as [Hf _].
  split; [reflexivity|]. intros m Hm Hr.
  unfold Cli.main. rewrite H. cbn [Cli.command Cli.given_month].
  destruct (Z.eqb_spec m 0) as [|_]; [easy|]. cbn [negb].
  assert (E : (m <? 1) || (m >? 12) = true).
  { apply orb_true_iff. destruct Hr; [left; now apply Z.ltb_lt|right].
    rewrite Z.gtb_ltb. now apply Z.ltb_lt. }
  rewrite E. cbn [Cli.handled]. now rewrite Hf.
Qed.

Lemma main_summary_month_edges_witness :
  Cli.main plain today (data_file two_records) (Cli.SummaryCommand (Some 0))
  = Cli.main plain today (data_file two_records) (Cli.SummaryCommand None)
  /\ (forall m, m <> 0 -> m < 1 \/ 12 < m ->
        Cli.main plain today (data_file two_records) (Cli.SummaryCommand (Some m))
        = (Return ["Error: Month must be between 1 and 12"], data_file two_records)).
Proof.
  apply (main_summary_month_edges plain today (data_file two_records) two_records).
  reflexivity.
Defined.

Lemma monthly_total_zero (strptime : string -> option datetime.t)
    (now : datetime.t) (m : Z) (self : t) :
  Forall (fun e => strptime (Expense.date e) <> None) (expenses self) ->
  get_total_expenses strptime now (Some m) self = Return 0%float.
Proof.
  intros H. unfold get_total_expenses.
  rewrite (total_from_month strptime m (datetime.year now) (expenses self) 0%float H).
  now rewrite (filter_none _ _ (in_month_never strptime m (datetime.year now))).
Qed.

(** X16: for every month from 1 to 12 and every file whose records have
    dates that parse, the summary of the month prints the name of the
    month with the amount zero, whatever the records are. *)
Theorem main_monthly_summary_prints_zero (lib : Cli.library) (now : datetime.t)
    (file : option content) (tracker : t) (m : Z) :
  init now file = Return tracker ->
  Forall (fun e => Cli.strptime lib (Expense.date e) <> None) (expenses tracker) ->
  1 <= m <= 12 ->
  Cli.main lib now file (Cli.SummaryCommand (Some m))
  = (Return [("Total expenses for " ++ Cli.month_name m ++ ": "
              ++ Cli.format_2f lib 0%float)%string], file).
Proof.
  intros H Hp Hm. destruct (init_Return now file tracker H) as [Hf _].
  unfold Cli.main. rewrite H. cbn [Cli.command Cli.given_month].
  destruct (Z.eqb_spec m 0) as [|_]; [lia|]. cbn [negb].
  assert (E : (m <? 1) || (m >? 12) = false).
  { apply orb_false_iff. split; [apply Z.ltb_ge; lia|].
    rewrite Z.gtb_ltb. apply Z.ltb_ge. lia. }
  rewrite E, (monthly_total_zero (Cli.strptime lib) now m tracker Hp).
  cbn [Cli.handled]. now rewrite Hf.
Qed.

Lemma main_monthly_summary_prints_zero_witness :
  Cli.main plain today (data_file two_records) (Cli.SummaryCommand (Some 11))
  = (Return [("Total expenses for " ++ Cli.month_name 11 ++ ": "
              ++ Cli.format_2f plain 0%float)%string], data_file two_records).
Proof.
  apply (main_monthly_summary_prints_zero plain today (data_file two_records)
           two_records 11).
  - reflexivity.
  - repeat constructor; discriminate.
  - lia.
Defined.

(** ** What [main] does to the file, and what it raises *)




(** The body of the [try] returns or raises; what it raises is caught. *)
Lemma command_handled (lib : Cli.library) (now : datetime.t) (a : Cli.args)
    (tracker : t) :
  exists lines, Cli.handled lib (fst (Cli.command lib now a tracker)) = Return lines.
Proof.
  assert (T : forall month,
    (exists total, get_total_expenses (Cli.strptime lib) now month tracker
                   = Return total)
    \/ exists e, get_total_expenses (Cli.strptime lib) now month tracker = Raise e).
  { intros month. unfold get_total_expenses.
    destruct (total_from_cases (Cli.strptime lib) month (datetime.year now)
                (expenses tracker) 0%float) as [[_ (x & ->)]|[_ (x & _ & ->)]];
      [left|right]; now eexists. }
  assert (R : forall e, exists lines, Cli.handled lib (Raise e) = Return lines)
    by (intros []; now eexists).
  destruct a as [|ti de am|i|i ti de am| |month]; cbn [Cli.command].
  - now eexists.
  - unfold add_expense. destruct (am <=? 0)%float; [apply R | now eexists].
  - unfold delete_expense. destruct (find_id i 0 (expenses tracker)); now eexists.
  - destruct (Cli.given ti && negb (Cli.given de) && negb (Cli.given_amount am));
      [now eexists|].
    unfold update_expense. destruct (find_id i 0 (expenses tracker)) as [j|];
      [|now eexists].
    destruct am as [v|]; [destruct (v <=? 0)%float|]; cbn [fst];
      [apply R | now eexists | now eexists].
  - now eexists.
  - destruct (if Cli.given_month month then month else None) as [m|].
    + destruct ((m <? 1) || (m >? 12)); [now eexists|].
      destruct (T (Some m)) as [(x & ->)|(x & ->)]; [now eexists | apply R].
    + destruct (T None) as [(x & ->)|(x & ->)]; [now eexists | apply R].
Qed.

(** X18: [main] raises only what [load_expenses] raises while the
    tracker is built, before the [try]: [TypeError] on a document of the
    wrong shape, or what [open] and [json.load] raised on the file and the
    [except] clause of [load_expenses] does not catch.  Nothing is printed
    then and the file is left as it was.  Once the tracker is built, every
    command ends with lines printed, the errors of the tracker among
    them. *)
Theorem main_raises_only_from_load (lib : Cli.library) (now : datetime.t)
    (file : option content) (a : Cli.args) :
  (forall e, fst (Cli.main lib now file a) = Raise e ->
     load_expenses now file = Raise e
     /\ snd (Cli.main lib now file a) = file
     /\ e <> JSONDecodeError
     /\ (forall key, e <> KeyError key)
     /\ (file = Some (Failing e)
         \/ (e = TypeError /\ exists data, file = Some (Document data))))
  /\ (forall e, load_expenses now file = Raise e ->
        Cli.main lib now file a = (Raise e, file))
  /\ (forall tracker, init now file = Return tracker ->
        exists lines, fst (Cli.main lib now file a) = Return lines).
Proof.
  assert (G : forall tracker, init now file = Return tracker ->
                exists lines, fst (Cli.main lib now file a) = Return lines).
  { intros tracker H. unfold Cli.main. rewrite H.
    destruct (command_handled lib now a tracker) as (lines & E).
    destruct (Cli.command lib now a tracker) as [r tracker']. cbn [fst] in *.
    destruct a; try (exists lines; exact E). now eexists. }
  split; [|split; [|exact G]].
  - intros e He. destruct (init now file) as [tracker|x|] eqn:H.
    + destruct (G tracker eq_refl) as (lines & E). rewrite E in He. discriminate.
    + unfold Cli.main in *. rewrite H in *. cbn [fst snd] in *. injection He as ->.
      unfold init in H. destruct (load_expenses now file) as [l|y|] eqn:L;
        try discriminate. cbn [bind] in H. injection H as ->.
      destruct (load_expenses_Raise now file e L) as (H1 & H2 & H3).
      now repeat split.
    + unfold Cli.main in He. rewrite H in He. discriminate.
  - intros e L. unfold Cli.main, init. now rewrite L.
Qed.

(** ** An amount that is not positive, on the command line *)

(** X19: an [add] with an amount [<= 0] prints the error for the amount
    and leaves the file as it was; so does an [update] of a record that is
    there, when it passes the test on its options, although the title and
    the description it brings were assigned in memory. *)
Theorem main_rejects_nonpositive_amount (lib : Cli.library) (now : datetime.t)
    (file : option content) (tracker : t) (v : float) :
  init now file = Return tracker ->
  (v <=? 0)%float = true ->
  (forall title description,
     Cli.main lib now file (Cli.AddCommand title description v)
     = (Return ["Error: Amount must be positive."], file))
  /\ (forall id title description,
        (exists e, In e (expenses tracker) /\ Expense.id e = id) ->
        Cli.given title && negb (Cli.given description)
        && negb (Cli.given_amount (Some v)) = false ->
        Cli.main lib now file (Cli.UpdateCommand id title description (Some v))
        = (Return ["Error: Amount must be positive."], file)).
Proof.
  intros H Hv. destruct (init_Return now file tracker H) as [Hf _]. split.
  - intros ti de. unfold Cli.main. rewrite H. cbn [Cli.command].
    unfold add_expense. rewrite Hv. cbn [Cli.handled Cli.str]. now rewrite Hf.
  - intros i ti de (e0 & Hin & Hid) Hg.
    destruct (find_id_In i (expenses tracker) e0 Hin Hid) as (j & Hj).
    unfold Cli.main. rewrite H. cbn [Cli.command]. rewrite Hg.
    unfold update_expense. rewrite Hj, Hv. cbn [Cli.handled Cli.str].
    destruct ti, de; cbn [assign_at data_file]; now rewrite Hf.
Qed.

Lemma main_rejects_nonpositive_amount_witness :
  (forall title description,
     Cli.main plain today (data_file two_records)
       (Cli.AddCommand title description (-5)%float)
     = (Return ["Error: Amount must be positive."], data_file two_records))
  /\ (forall id title description,
        (exists e, In e (expenses two_records) /\ Expense.id e = id) ->
        Cli.given title && negb (Cli.given description)
        && negb (Cli.given_amount (Some (-5)%float)) = false ->
        Cli.main plain today (data_file two_records)
          (Cli.UpdateCommand id title description (Some (-5)%float))
        = (Return ["Error: Amount must be positive."], data_file two_records)).
Proof.
  apply (main_rejects_nonpositive_amount plain today (data_file two_records)
           two_records (-5)%float); reflexivity.
Defined.

(** ** The listing *)

Lemma len_app (s1 s2 : string) :
  Cli.len (s1 ++ s2) = (Cli.len s1 + Cli.len s2)%nat.
Proof.
  induction s1 as [|c s1 IH]; [reflexivity|].
  cbn [append Cli.len]. rewrite IH. lia.
Qed.

Lemma len_blanks (n : nat) : Cli.len (Cli.replicate n " ") = n.
Proof.
  induction n as [|n IH]; [reflexivity|].
  cbn [Cli.replicate Cli.len]. now rewrite IH.
Qed.

(** X20: [print_expenses] prints the one line [No expenses found.] for an
    empty collection, and otherwise the heading, a rule of fifty dashes and
    one line for each record, in the order of the collection.  The line of
    a record shows its id, its date, its description and its amount as
    [format_currency] writes it, each followed by blanks up to 4, 12, 20
    and 10 characters and never cut, with one blank between them; it never
    shows the title, so that records with other titles print the same. *)
Theorem print_expenses_shows_no_title (lib : Cli.library) (l : list Expense.t) :
  Cli.print_expenses lib [] = ["No expenses found."]
  /\ (l <> [] ->
      Cli.print_expenses lib l
      = "ID   Date         Description          Amount    "
        :: "--------------------------------------------------"
        :: map (Cli.row lib) l)
  /\ (forall e,
        Cli.row lib e
        = (Cli.ljust 4 (Cli.str_int (Expense.id e)) ++ " "
           ++ Cli.ljust 12 (Expense.date e) ++ " "
           ++ Cli.ljust 20 (Expense.description e) ++ " "
           ++ Cli.ljust 10 (Cli.format_currency lib (Expense.amount e)))%string)
  /\ (forall width s,
        Cli.ljust width s
        = (s ++ Cli.replicate (width - Cli.len s) " ")%string
        /\ Cli.len (Cli.ljust width s) = Nat.max width (Cli.len s))
  /\ (forall f : Expense.t -> string,
        Cli.print_expenses lib (map (fun e => Expense.set_title (f e) e) l)
        = Cli.print_expenses lib l).
Proof.
  split; [reflexivity|]. split; [|split; [|split]].
  - destruct l as [|e l]; [easy|]. intros _. reflexivity.
  - reflexivity.
  - intros width s. split; [reflexivity|].
    unfold Cli.ljust. rewrite len_app, len_blanks. lia.
  - intros f. destruct l as [|e l]; [reflexivity|].
    cbn [map Cli.print_expenses]. do 3 f_equal.
    rewrite map_map. now apply map_ext.
Qed.
